(** * FixAndFit: appointment scheduling and consultation lifecycle

    A shallow embedding of the scheduling core of the FixAndFit backend:
    the Mongoose models [models/Appointment.js] and [models/Consultation.js]
    and the controllers [appointmentController] and
    [consultationController].

    Conventions of the embedding.
    - A JavaScript [Date] is its time value: an integer number of
      milliseconds since the epoch ([Z]).  Local-time setters take the
      offset [tz] of the server's time zone (local = UTC + tz), assumed
      constant over the day in question.
    - A MongoDB collection is the list of its documents in insertion order;
      [_id] is an [ObjectId] (a [nat]); the ObjectId Mongoose generates for a
      new document is an input of the operation that creates it.
    - A request handler is a function from the collection(s) and the request
      to either a [Failure] (what reaches the Express error handler) or the
      payload of the JSON response, together with the collection after the
      request.
    - [undefined] is [None]. *)

From Stdlib Require Import ZArith List String Ascii Bool Lia Arith DecimalString.
Import ListNotations.
Local Open Scope Z_scope.

(** ** Failures and the result monad *)

Inductive Failure : Type :=
| AppError (message : string) (statusCode : Z)
    (* next(new AppError(message, statusCode)) *)
| HookError (message : string) (statusCode : Z)
    (* an Error with a statusCode handed to next() by a save hook *)
| ValidationError (path : string) (message : string)
    (* Mongoose schema validation (or cast) failure at [path] *)
| DuplicateKeyError
    (* MongoDB E11000 on the unique _id index *)
| TypeError (message : string).
    (* a JavaScript runtime exception *)

Definition Result (A : Type) : Type := (Failure + A)%type.

Definition ok {A} (a : A) : Result A := inr a.
Definition fail {A} (e : Failure) : Result A := inl e.

Definition bind {A B} (m : Result A) (k : A -> Result B) : Result B :=
  match m with
  | inl e => inl e
  | inr a => k a
  end.

Notation "x <- m ;; k" := (bind m (fun x => k))
  (at level 61, m at next level, right associativity).
Notation "m ;;; k" := (bind m (fun _ => k))
  (at level 61, right associativity).

Definition isOk {A} (m : Result A) : bool :=
  match m with inr _ => true | inl _ => false end.

(** ** Identities *)

Definition ObjectId := nat.
Bind Scope nat_scope with ObjectId.

Inductive Role := role_user | role_staff | role_admin.

Definition Role_eqb (a b : Role) : bool :=
  match a, b with
  | role_user, role_user | role_staff, role_staff | role_admin, role_admin => true
  | _, _ => false
  end.

(** A document of the users collection, restricted to the paths the
    controllers read. *)
Record User := mkUser {
  user_id : ObjectId;
  user_role : Role;
  user_isActive : bool
}.

(** [req.user] as set by [authController.protect]. *)
Record ReqUser := mkReqUser {
  id : ObjectId;
  role : Role
}.

(** [User.findOne({ role: 'admin', isActive: true })] *)
Definition findActiveAdmin (users : list User) : option User :=
  find (fun u => Role_eqb (user_role u) role_admin && user_isActive u) users.

(** JavaScript truthiness of an optional string: [undefined] and the empty
    string are falsy. *)
Definition truthy (s : option string) : bool :=
  match s with
  | Some s' => negb (String.eqb s' EmptyString)
  | None => false
  end.

(** ** JavaScript Date arithmetic (ECMA-262, 21.4.1) *)

Module JSDate.

Definition msPerSecond : Z := 1000.
Definition msPerMinute : Z := 60000.
Definition msPerHour : Z := 3600000.
Definition msPerDay : Z := 86400000.

Definition Day (t : Z) : Z := t / msPerDay.
Definition HourFromTime (t : Z) : Z := (t / msPerHour) mod 24.
Definition MinFromTime (t : Z) : Z := (t / msPerMinute) mod 60.
Definition SecFromTime (t : Z) : Z := (t / msPerSecond) mod 60.
Definition msFromTime (t : Z) : Z := t mod msPerSecond.

Definition MakeTime (hour min sec ms : Z) : Z :=
  hour * msPerHour + min * msPerMinute + sec * msPerSecond + ms.
Definition MakeDate (day time : Z) : Z := day * msPerDay + time.

Definition LocalTime (tz t : Z) : Z := t + tz.
Definition UTC (tz t : Z) : Z := t - tz.

(** [d.setHours(hour, min, sec, ms)]: the new time value of [d]. *)
Definition setHours (tz t hour min sec ms : Z) : Z :=
  UTC tz (MakeDate (Day (LocalTime tz t)) (MakeTime hour min sec ms)).

(** [d.getMinutes()] *)
Definition getMinutes (tz t : Z) : Z := MinFromTime (LocalTime tz t).

(** [d.setMinutes(min)]: the new time value of [d]. *)
Definition setMinutes (tz t min : Z) : Z :=
  let lt := LocalTime tz t in
  UTC tz (MakeDate (Day lt)
                   (MakeTime (HourFromTime lt) min (SecFromTime lt) (msFromTime lt))).

End JSDate.

(** ** models/Appointment.js *)

Module Appointment.

Inductive AppointmentType :=
| consultation | fitting | follow_up | adjustment | emergency
| virtual_consultation.

Inductive Status := scheduled | completed | cancelled | no_show | in_progress.

Definition isCancelled (s : Status) : bool :=
  match s with cancelled => true | _ => false end.

(** A stored appointment document.  The paths [documents], [reminders],
    [meetingLink] and [notes] are never read or written by the
    operations below and are left out. *)
Record t := mk {
  _id : ObjectId;
  patient : ObjectId;
  admin : ObjectId;
  appointmentType : AppointmentType;
  status : Status;
  startTime : Z;
  endTime : Z;
  reason : string;
  isVirtual : bool;
  cancelledAt : option Z;
  cancellationReason : option string
}.

(** The schema declares the references [patient] and [admin] only: there is
    no path [user] and no path [practitioner], so on any appointment
    document [appointment.user] and [appointment.practitioner] are
    [undefined], also after [.populate('user practitioner')] (which, under
    Mongoose's [strictPopulate], itself throws for such paths: either way a
    handler that reads them fails on every appointment it finds). *)
Definition user (a : t) : option User := None.
Definition practitioner (a : t) : option User := None.

(** The object handed to [Appointment.create]: what the request supplied,
    before casting and validation.  [None] is a missing value (for the two
    dates also an Invalid Date; for the type also a string outside the
    enum). *)
Record Fields := mkFields {
  f_patient : ObjectId;
  f_admin : ObjectId;
  f_appointmentType : option AppointmentType;
  f_startTime : option Z;
  f_endTime : option Z;
  f_reason : option string;
  f_isVirtual : bool
}.

(** The validator of [endTime]: [value > this.startTime].  [this_startTime]
    is [None] when [this] is not an appointment document (an update
    validator runs with the query, or nothing, as [this]); a comparison
    with [undefined] is false. *)
Definition endTimeValidator (this_startTime : option Z) (value : Z) : bool :=
  match this_startTime with
  | Some s => value >? s
  | None => false
  end.

(** [required] on a String path. *)
Definition requiredString (s : string) : bool := negb (String.eqb s EmptyString).

(** Document validation, which Mongoose runs as the first save hook. *)
Definition validate (this : t) : Result unit :=
  if negb (endTimeValidator (Some (startTime this)) (endTime this))
  then fail (ValidationError "endTime" "End time must be after start time")
  else if negb (requiredString (reason this))
  then fail (ValidationError "reason" "Reason for appointment is required")
  else ok tt.

(** Casting and validating a new document built from [Fields]; [status]
    takes its default. *)
Definition construct (newId : ObjectId) (f : Fields) : Result t :=
  match f_appointmentType f with
  | None => fail (ValidationError "appointmentType" "Appointment type is required")
  | Some ty =>
    match f_startTime f with
    | None => fail (ValidationError "startTime" "Start time is required")
    | Some st =>
      match f_endTime f with
      | None => fail (ValidationError "endTime" "End time is required")
      | Some en =>
        match f_reason f with
        | None => fail (ValidationError "reason" "Reason for appointment is required")
        | Some r =>
          let this := mk newId (f_patient f) (f_admin f) ty scheduled st en r
                         (f_isVirtual f) None None in
          validate this ;;; ok this
        end
      end
    end
  end.

(** The half-open overlap condition of the save hook's query:
    [{ startTime: { $lt: this.endTime }, endTime: { $gt: this.startTime } }]. *)
Definition overlaps (this other : t) : bool :=
  (startTime other <? endTime this) && (endTime other >? startTime this).

(** The filter of the save hook's [findOne]: the [$or] of the admin clause
    and the patient clause. *)
Definition conflictQuery (this other : t) : bool :=
  ((admin other =? admin this)%nat
     && negb (_id other =? _id this)%nat
     && negb (isCancelled (status other))
     && overlaps this other)
  || ((patient other =? patient this)%nat
        && negb (_id other =? _id this)%nat
        && negb (isCancelled (status other))
        && overlaps this other).

(** [appointmentSchema.pre('save', ...)] *)
Definition preSave (db : list t) (this : t) : Result unit :=
  if isCancelled (status this) then ok tt
  else
    match find (conflictQuery this) db with
    | Some existingAppointment => fail (HookError "Time slot is already booked" 400)
    | None => ok tt
    end.

Definition findById (db : list t) (i : ObjectId) : option t :=
  find (fun a => (_id a =? i)%nat) db.

(** Writing back a loaded document: the stored document with that [_id]
    is replaced. *)
Definition replace (db : list t) (this : t) : list t :=
  map (fun a => if (_id a =? _id this)%nat then this else a) db.

(** [Appointment.create(fields)]: construct, validate, run the save hook,
    insert. *)
Definition create (db : list t) (newId : ObjectId) (f : Fields) : Result (list t * t) :=
  this <- construct newId f ;;
  preSave db this ;;;
  match findById db newId with
  | Some _ => fail DuplicateKeyError
  | None => ok (db ++ [this], this)
  end.

(** [appointment.save()] on a loaded document. *)
Definition save (db : list t) (this : t) : Result (list t) :=
  validate this ;;;
  preSave db this ;;;
  ok (replace db this).

(** The body of a PATCH request made of plain field assignments, as
    [findByIdAndUpdate] uses it: the paths to [$set].  [None] is a path the
    body does not mention.  The handler hands [req.body] to
    [findByIdAndUpdate] as it comes, so a body may also carry update
    operators ([$currentDate], [$max], [$min], [$unset], ...), which update
    validators do not check; such bodies are outside this model, and
    every statement about [updateAppointment] below speaks of bodies of
    plain field assignments only. *)
Record Update := mkUpdate {
  u_patient : option ObjectId;
  u_admin : option ObjectId;
  u_appointmentType : option AppointmentType;
  u_status : option Status;
  u_startTime : option Z;
  u_endTime : option Z;
  u_reason : option string;
  u_isVirtual : option bool;
  u_cancelledAt : option Z;
  u_cancellationReason : option string
}.

Definition orElse {A} (o : option A) (d : A) : A :=
  match o with Some a => a | None => d end.

Definition applyUpdate (u : Update) (a : t) : t :=
  mk (_id a)
     (orElse (u_patient u) (patient a))
     (orElse (u_admin u) (admin a))
     (orElse (u_appointmentType u) (appointmentType a))
     (orElse (u_status u) (status a))
     (orElse (u_startTime u) (startTime a))
     (orElse (u_endTime u) (endTime a))
     (orElse (u_reason u) (reason a))
     (orElse (u_isVirtual u) (isVirtual a))
     (match u_cancelledAt u with Some c => Some c | None => cancelledAt a end)
     (match u_cancellationReason u with Some c => Some c | None => cancellationReason a end).

(** Update validators ([runValidators: true]): the validators of the paths
    the update sets, run without the document. *)
Definition updateValidators (u : Update) : Result unit :=
  match u_endTime u with
  | Some v =>
      if endTimeValidator None v then ok tt
      else fail (ValidationError "endTime" "End time must be after start time")
  | None => ok tt
  end ;;;
  match u_reason u with
  | Some r =>
      if requiredString r then ok tt
      else fail (ValidationError "reason" "Reason for appointment is required")
  | None => ok tt
  end.

(** [Appointment.findByIdAndUpdate(id, update, { new: true, runValidators: true })].
    This is a query: it triggers [findOneAndUpdate] middleware, of which the
    schema registers none, and no [save] middleware. *)
Definition findByIdAndUpdate (db : list t) (i : ObjectId) (u : Update)
  : Result (list t * option t) :=
  updateValidators u ;;;
  match findById db i with
  | None => ok (db, None)
  | Some a =>
      let a' := applyUpdate u a in
      ok (replace db a', Some a')
  end.

End Appointment.

(** ** controllers/appointmentController.js *)

Module appointmentController.

Import Appointment.

(** [req.body] of a booking request.  The two dates are the time values of
    [new Date(startTime)] and [new Date(endTime)]; [None] is an Invalid
    Date, for which every comparison is false. *)
Record Body := mkBody {
  b_appointmentType : option AppointmentType;
  b_startTime : option Z;
  b_endTime : option Z;
  b_reason : option string;
  b_isVirtual : option bool
}.

(** [a < b] on dates, false when either is invalid. *)
Definition dateLt (a b : option Z) : bool :=
  match a, b with
  | Some x, Some y => x <? y
  | _, _ => false
  end.

(** [a <= b] on dates, false when either is invalid. *)
Definition dateLe (a b : option Z) : bool :=
  match a, b with
  | Some x, Some y => x <=? y
  | _, _ => false
  end.

(** [exports.createAppointment]; [now] is the value of [new Date()]. *)
Definition createAppointment (users : list User) (db : list t) (newId : ObjectId)
           (reqUser : ReqUser) (body : Body) (now : Z) : Result (list t * t) :=
  match findActiveAdmin users with
  | None => fail (AppError "No admin available for appointment" 400)
  | Some adminUser =>
      let appointmentStart := b_startTime body in
      let appointmentEnd := b_endTime body in
      if dateLt appointmentStart (Some now)
      then fail (AppError "Cannot book appointments in the past" 400)
      else if dateLe appointmentEnd appointmentStart
      then fail (AppError "End time must be after start time" 400)
      else
        create db newId
               (mkFields (id reqUser) (user_id adminUser) (b_appointmentType body)
                         appointmentStart appointmentEnd (b_reason body)
                         (orElse (b_isVirtual body) false))
  end.

(** The permission test shared by update and cancel. *)
Definition canModify (reqUser : ReqUser) (appointment : t) : bool :=
  Role_eqb (role reqUser) role_admin
  || Role_eqb (role reqUser) role_staff
  || (patient appointment =? id reqUser)%nat.

(** [exports.updateAppointment] *)
Definition updateAppointment (db : list t) (reqUser : ReqUser) (i : ObjectId)
           (body : Update) : Result (list t * option t) :=
  match findById db i with
  | None => fail (AppError "No appointment found with that ID" 404)
  | Some appointment =>
      if negb (canModify reqUser appointment)
      then fail (AppError "You do not have permission to update this appointment" 403)
      else findByIdAndUpdate db i body
  end.

(** [req.body.reason || 'No reason provided'] *)
Definition reasonOrDefault (r : option string) : string :=
  if truthy r then orElse r "No reason provided"%string
  else "No reason provided"%string.

(** [exports.cancelAppointment]; [now] is the value of [new Date()]. *)
Definition cancelAppointment (db : list t) (reqUser : ReqUser) (i : ObjectId)
           (reason : option string) (now : Z) : Result (list t * t) :=
  match findById db i with
  | None => fail (AppError "No appointment found with that ID" 404)
  | Some appointment =>
      if negb (canModify reqUser appointment)
      then fail (AppError "You do not have permission to cancel this appointment" 403)
      else
        let appointment' :=
          mk (_id appointment) (patient appointment) (admin appointment)
             (appointmentType appointment) cancelled
             (startTime appointment) (endTime appointment)
             (Appointment.reason appointment) (isVirtual appointment)
             (Some now) (Some (reasonOrDefault reason)) in
        db' <- save db appointment' ;;
        ok (db', appointment')
  end.

(** An element of [availableSlots]. *)
Record Slot := mkSlot {
  slot_startTime : Z;
  slot_endTime : Z
}.

Record WorkingHours := mkWorkingHours {
  wh_start : Z;
  wh_end : Z;
  slotDuration : Z  (* minutes *)
}.

Definition workingHours : WorkingHours := mkWorkingHours 9 17 60.

(** The values [hour] takes in
    [for (let hour = start; hour < end; hour++)]. *)
Definition hours (wh : WorkingHours) : list Z :=
  map (fun k => wh_start wh + Z.of_nat k) (seq 0 (Z.to_nat (wh_end wh - wh_start wh))).

Section Slots.

Variable tz : Z.

(** [new Date(selectedDate.setHours(0, 0, 0, 0))] *)
Definition startOfDay (date : Z) : Z := JSDate.setHours tz date 0 0 0 0.

(** [new Date(selectedDate.setHours(23, 59, 59, 999))], evaluated after
    the first [setHours] has moved [selectedDate] to the start of the
    day. *)
Definition endOfDay (date : Z) : Z :=
  JSDate.setHours tz (startOfDay date) 23 59 59 999.

(** The filter of the query for [existingAppointments]. *)
Definition onSelectedDate (adminId : ObjectId) (date : Z) (a : t) : bool :=
  (admin a =? adminId)%nat
  && (startOfDay date <=? startTime a) && (startTime a <=? endOfDay date)
  && negb (isCancelled (status a)).

(** [slotStart] of the iteration for [hour]; [selectedDate] then holds
    the end of the day. *)
Definition slotStart (date hour : Z) : Z :=
  JSDate.setHours tz (endOfDay date) hour 0 0 0.

(** [slotEnd] of the iteration for [hour]. *)
Definition slotEnd (date hour : Z) : Z :=
  let s := slotStart date hour in
  JSDate.setMinutes tz s (JSDate.getMinutes tz s + slotDuration workingHours).

(** The callback of [existingAppointments.some]. *)
Definition conflicts (slotStart slotEnd : Z) (appointment : t) : bool :=
  (slotStart <? endTime appointment) && (slotEnd >? startTime appointment).

(** One iteration of the loop; [now] is the value that [new Date()]
    yields in this iteration. *)
Definition slotStep (existingAppointments : list t) (date : Z) (now : Z)
           (availableSlots : list Slot) (hour : Z) : list Slot :=
  let s := slotStart date hour in
  let e := slotEnd date hour in
  let isAvailable := negb (existsb (conflicts s e) existingAppointments) in
  if isAvailable && (s >? now)
  then availableSlots ++ [mkSlot s e]
  else availableSlots.

(** [exports.getAvailableSlots].  [date] is the time value of
    [new Date(req.query.date)], [None] when the parameter is missing;
    [clock hour] is the instant [new Date()] returns in the iteration
    for [hour].  The requested day is the local calendar day that contains
    [date]. *)
Definition getAvailableSlots (users : list User) (db : list t)
           (clock : Z -> Z) (date : option Z) : Result (list Slot) :=
  match date with
  | None => fail (AppError "Date is required" 400)
  | Some date =>
      match findActiveAdmin users with
      | None => fail (AppError "No admin available" 400)
      | Some adminUser =>
          let existingAppointments :=
            filter (onSelectedDate (user_id adminUser) date) db in
          ok (fold_left
                (fun availableSlots hour =>
                   slotStep existingAppointments date (clock hour) availableSlots hour)
                (hours workingHours) [])
      end
  end.

End Slots.

End appointmentController.

(** ** models/Consultation.js *)

Module Consultation.

Inductive Status := scheduled | active | completed | cancelled.

(** The enum of [participants.role]. *)
Inductive ParticipantRole := as_patient | as_admin | as_observer.

Inductive ConnectionStatus := connected | disconnected | reconnecting.

(** An element of [participants]; [p_role] is [None] when the
    subdocument has no [role]. *)
Record Participant := mkParticipant {
  user : ObjectId;
  p_role : option ParticipantRole;
  joinedAt : option Z;
  leftAt : option Z;
  connectionStatus : ConnectionStatus
}.

Record Feedback := mkFeedback {
  patientRating : option Z;
  patientFeedback : option string;
  practitionerRating : option Z;
  practitionerFeedback : option string;
  technicalRating : option Z
}.

(** A consultation document.  The paths [recordings], [attachments],
    [technicalIssues], [followUpRequired], [followUpNotes] and
    [nextAppointmentSuggested] are never read or written by the
    operations below and are left out. *)
Record t := mk {
  _id : ObjectId;
  appointment : ObjectId;
  patient : ObjectId;
  practitioner : ObjectId;
  roomId : option string;
  status : Status;
  startTime : Z;
  endTime : option Z;
  actualStartTime : option Z;
  actualEndTime : option Z;
  duration : option Z;
  notes : option string;
  patientNotes : option string;
  practitionerNotes : option string;
  participants : list Participant;
  feedback : Feedback
}.

Definition set_roomId (v : option string) (c : t) : t :=
  mk (_id c) (appointment c) (patient c) (practitioner c) v (status c)
     (startTime c) (endTime c) (actualStartTime c) (actualEndTime c) (duration c)
     (notes c) (patientNotes c) (practitionerNotes c) (participants c) (feedback c).

Definition set_status (v : Status) (c : t) : t :=
  mk (_id c) (appointment c) (patient c) (practitioner c) (roomId c) v
     (startTime c) (endTime c) (actualStartTime c) (actualEndTime c) (duration c)
     (notes c) (patientNotes c) (practitionerNotes c) (participants c) (feedback c).

Definition set_actualStartTime (v : option Z) (c : t) : t :=
  mk (_id c) (appointment c) (patient c) (practitioner c) (roomId c) (status c)
     (startTime c) (endTime c) v (actualEndTime c) (duration c)
     (notes c) (patientNotes c) (practitionerNotes c) (participants c) (feedback c).

Definition set_actualEndTime (v : option Z) (c : t) : t :=
  mk (_id c) (appointment c) (patient c) (practitioner c) (roomId c) (status c)
     (startTime c) (endTime c) (actualStartTime c) v (duration c)
     (notes c) (patientNotes c) (practitionerNotes c) (participants c) (feedback c).

Definition set_duration (v : option Z) (c : t) : t :=
  mk (_id c) (appointment c) (patient c) (practitioner c) (roomId c) (status c)
     (startTime c) (endTime c) (actualStartTime c) (actualEndTime c) v
     (notes c) (patientNotes c) (practitionerNotes c) (participants c) (feedback c).

Definition set_participants (v : list Participant) (c : t) : t :=
  mk (_id c) (appointment c) (patient c) (practitioner c) (roomId c) (status c)
     (startTime c) (endTime c) (actualStartTime c) (actualEndTime c) (duration c)
     (notes c) (patientNotes c) (practitionerNotes c) v (feedback c).

Definition set_feedback (v : Feedback) (c : t) : t :=
  mk (_id c) (appointment c) (patient c) (practitioner c) (roomId c) (status c)
     (startTime c) (endTime c) (actualStartTime c) (actualEndTime c) (duration c)
     (notes c) (patientNotes c) (practitionerNotes c) (participants c) v.

(** White space removed by the [trim] setter (the ASCII part of it). *)
Definition isSpace (c : ascii) : bool :=
  let n := nat_of_ascii c in
  ((9 <=? n)%nat && (n <=? 13)%nat) || (n =? 32)%nat.

Fixpoint trimStart (s : string) : string :=
  match s with
  | EmptyString => EmptyString
  | String c s' => if isSpace c then trimStart s' else s
  end.

Fixpoint trimEnd (s : string) : string :=
  match s with
  | EmptyString => EmptyString
  | String c s' =>
      let r := trimEnd s' in
      if isSpace c && String.eqb r EmptyString then EmptyString else String c r
  end.

(** The setter of a String path declared with [trim: true]. *)
Definition trimmed (v : option string) : option string :=
  option_map (fun s => trimEnd (trimStart s)) v.

Definition set_notes (v : option string) (c : t) : t :=
  mk (_id c) (appointment c) (patient c) (practitioner c) (roomId c) (status c)
     (startTime c) (endTime c) (actualStartTime c) (actualEndTime c) (duration c)
     (trimmed v) (patientNotes c) (practitionerNotes c) (participants c) (feedback c).

Definition set_patientNotes (v : option string) (c : t) : t :=
  mk (_id c) (appointment c) (patient c) (practitioner c) (roomId c) (status c)
     (startTime c) (endTime c) (actualStartTime c) (actualEndTime c) (duration c)
     (notes c) (trimmed v) (practitionerNotes c) (participants c) (feedback c).

Definition set_practitionerNotes (v : option string) (c : t) : t :=
  mk (_id c) (appointment c) (patient c) (practitioner c) (roomId c) (status c)
     (startTime c) (endTime c) (actualStartTime c) (actualEndTime c) (duration c)
     (notes c) (patientNotes c) (trimmed v) (participants c) (feedback c).

(** A JavaScript number as far as the duration needs it. *)
Inductive Num := NaN | Int (z : Z).

(** [a - b] on two dates; a date that is [undefined] makes it NaN. *)
Definition dateDiff (a b : option Z) : Num :=
  match a, b with
  | Some x, Some y => Int (x - y)
  | _, _ => NaN
  end.

(** [Math.round(n / (1000 * 60))]: the nearest integer, halves towards
    plus infinity. *)
Definition roundMinutes (n : Num) : Num :=
  match n with
  | NaN => NaN
  | Int d => Int ((d + 30000) / 60000)
  end.

(** [required] and [min]/[max] validation of the document and of its
    subdocuments. *)
Definition validRating (r : option Z) : bool :=
  match r with
  | Some n => (1 <=? n) && (n <=? 5)
  | None => true
  end.

Definition validParticipant (p : Participant) : bool :=
  match p_role p with Some _ => true | None => false end.

Definition validate (this : t) : Result unit :=
  if negb (truthy (roomId this))
  then fail (ValidationError "roomId" "Room ID is required")
  else if negb (forallb validParticipant (participants this))
  then fail (ValidationError "participants.role" "Path `role` is required.")
  else if negb (validRating (patientRating (feedback this))
                && validRating (practitionerRating (feedback this))
                && validRating (technicalRating (feedback this)))
  then fail (ValidationError "feedback" "Rating outside 1..5")
  else ok tt.

Definition showId (i : ObjectId) : string :=
  NilZero.string_of_uint (Nat.to_uint i).
Definition showTime (n : Z) : string :=
  NilZero.string_of_int (Z.to_int n).

(** First [pre('save')] hook: generate the room id. *)
Definition preSaveRoomId (dateNow : Z) (this : t) : t :=
  if negb (truthy (roomId this))
  then set_roomId
         (Some ("consultation_" ++ showId (_id this) ++ "_" ++ showTime dateNow)%string)
         this
  else this.

(** [!this.duration]: unset or zero. *)
Definition noDuration (d : option Z) : bool :=
  match d with
  | Some n => n =? 0
  | None => true
  end.

(** Second [pre('save')] hook: calculate the duration. *)
Definition preSaveDuration (this : t) : t :=
  match actualStartTime this, actualEndTime this with
  | Some _, Some _ =>
      if noDuration (duration this)
      then
        match roundMinutes (dateDiff (actualEndTime this) (actualStartTime this)) with
        | Int d => set_duration (Some d) this
        | NaN => this
        end
      else this
  | _, _ => this
  end.

Definition findById (db : list t) (i : ObjectId) : option t :=
  find (fun c => (_id c =? i)%nat) db.

(** [Consultation.findOne({ appointment: appointmentId })] *)
Definition findByAppointment (db : list t) (appointmentId : ObjectId) : option t :=
  find (fun c => (appointment c =? appointmentId)%nat) db.

Definition replace (db : list t) (this : t) : list t :=
  map (fun c => if (_id c =? _id this)%nat then this else c) db.

(** What [save] does to the document before it is written: Mongoose
    validates first, then runs the schema's [pre('save')] hooks in the
    order of registration. *)
Definition beforeSave (dateNow : Z) (this : t) : Result t :=
  validate this ;;;
  ok (preSaveDuration (preSaveRoomId dateNow this)).

(** [this.save()] on a loaded document: the collection and the document
    after the save. *)
Definition save (db : list t) (dateNow : Z) (this : t) : Result (list t * t) :=
  this' <- beforeSave dateNow this ;;
  ok (replace db this', this').

(** [Consultation.create({ appointment, patient, practitioner, startTime,
    endTime })]; [status] takes its default. *)
Definition create (db : list t) (newId : ObjectId) (dateNow : Z)
           (appointmentId patientId practitionerId : ObjectId)
           (start : Z) (end_ : option Z) : Result (list t * t) :=
  let this := mk newId appointmentId patientId practitionerId None scheduled
                 start end_ None None None None None None []
                 (mkFeedback None None None None None) in
  this' <- beforeSave dateNow this ;;
  match findById db newId with
  | Some _ => fail DuplicateKeyError
  | None => ok (db ++ [this'], this')
  end.

(** [consultationSchema.methods.startConsultation]; [now] is the value of
    [new Date()]. *)
Definition startConsultation (db : list t) (now : Z) (this : t) : Result (list t * t) :=
  let this := set_status active this in
  let this := set_actualStartTime (Some now) this in
  save db now this.

(** [consultationSchema.methods.endConsultation].  Assigning NaN to the
    Number path [duration] is a cast error, which Mongoose records on the
    document and reports when [save] validates it. *)
Definition endConsultation (db : list t) (now : Z) (notes : option string) (this : t)
  : Result (list t * t) :=
  let this := set_status completed this in
  let this := set_actualEndTime (Some now) this in
  let this := if truthy notes then set_notes notes this else this in
  match roundMinutes (dateDiff (actualEndTime this) (actualStartTime this)) with
  | Int d => save db now (set_duration (Some d) this)
  | NaN => fail (ValidationError "duration" "Cast to Number failed for value NaN")
  end.

(** [this.participants.find(p => p.user.toString() === userId.toString())] *)
Definition findParticipant (ps : list Participant) (userId : ObjectId) : option Participant :=
  find (fun p => (user p =? userId)%nat) ps.

(** Assignment through the reference [find] returned: the first entry of
    [userId] is changed in place. *)
Fixpoint updateParticipant (f : Participant -> Participant) (userId : ObjectId)
         (ps : list Participant) : list Participant :=
  match ps with
  | [] => []
  | p :: ps' =>
      if (user p =? userId)%nat then f p :: ps'
      else p :: updateParticipant f userId ps'
  end.

(** [consultationSchema.methods.addParticipant] *)
Definition addParticipant (db : list t) (now : Z) (userId : ObjectId) (this : t)
  : Result (list t * t) :=
  match findParticipant (participants this) userId with
  | Some existingParticipant =>
      save db now
           (set_participants
              (updateParticipant
                 (fun p => mkParticipant (user p) (p_role p) (Some now) None
                                         (connectionStatus p))
                 userId (participants this))
              this)
  | None =>
      save db now
           (set_participants
              (participants this ++ [mkParticipant userId None (Some now) None disconnected])
              this)
  end.

(** [consultationSchema.methods.removeParticipant] *)
Definition removeParticipant (db : list t) (now : Z) (userId : ObjectId) (this : t)
  : Result (list t * t) :=
  match findParticipant (participants this) userId with
  | Some participant =>
      save db now
           (set_participants
              (updateParticipant
                 (fun p => mkParticipant (user p) (p_role p) (joinedAt p) (Some now)
                                         (connectionStatus p))
                 userId (participants this))
              this)
  | None => save db now this
  end.

End Consultation.

(** ** controllers/consultationController.js *)

Module consultationController.

Import Consultation.

(** The outcome of a handler: the consultations collection after the
    request and what is sent. *)
Definition Outcome : Type := (list t * Result t)%type.

(** Run a model method that saves: on failure the collection is as it
    was before the call. *)
Definition run (db : list t) (m : Result (list t * t)) (k : list t -> t -> Outcome)
  : Outcome :=
  match m with
  | inl e => (db, fail e)
  | inr (db', this) => k db' this
  end.

(** Reading [x._id] where [x] may be [undefined]. *)
Definition idOf (x : option User) : Result ObjectId :=
  match x with
  | Some u => ok (user_id u)
  | None => fail (TypeError "Cannot read properties of undefined (reading '_id')")
  end.

(** [exports.createConsultation].  The conjunction of the authorization
    test is evaluated left to right and stops at the first false
    operand. *)
Definition createConsultation (appointments : list Appointment.t) (db : list t)
           (newId : ObjectId) (now : Z) (reqUser : ReqUser) (appointmentId : ObjectId)
  : Result (list t * t) :=
  match Appointment.findById appointments appointmentId with
  | None => fail (AppError "Appointment not found" 404)
  | Some appointment =>
      u <- idOf (Appointment.user appointment) ;;
      (if negb (u =? id reqUser)%nat
       then
         p <- idOf (Appointment.practitioner appointment) ;;
         if negb (p =? id reqUser)%nat && negb (Role_eqb (role reqUser) role_admin)
         then fail (AppError "Not authorized to create consultation for this appointment" 403)
         else ok tt
       else ok tt) ;;;
      match findByAppointment db appointmentId with
      | Some existingConsultation => ok (db, existingConsultation)
      | None =>
          u <- idOf (Appointment.user appointment) ;;
          p <- idOf (Appointment.practitioner appointment) ;;
          create db newId now appointmentId u p
                 (Appointment.startTime appointment)
                 (Some (Appointment.endTime appointment))
      end
  end.

(** The test of [start], [join] and [addNotes]: true when the caller is
    refused. *)
Definition notParticipantOrAdmin (reqUser : ReqUser) (consultation : t) : bool :=
  negb (patient consultation =? id reqUser)%nat
  && negb (practitioner consultation =? id reqUser)%nat
  && negb (Role_eqb (role reqUser) role_admin).

(** [exports.startConsultation]; [now] and [now'] are the instants of the
    two model calls. *)
Definition startConsultation (db : list t) (now now' : Z) (reqUser : ReqUser)
           (i : ObjectId) : Outcome :=
  match findById db i with
  | None => (db, fail (AppError "Consultation not found" 404))
  | Some consultation =>
      if notParticipantOrAdmin reqUser consultation
      then (db, fail (AppError "Not authorized to start this consultation" 403))
      else
        run db (Consultation.startConsultation db now consultation) (fun db1 c1 =>
        run db1 (addParticipant db1 now' (id reqUser) c1) (fun db2 c2 =>
        (db2, ok c2)))
  end.

(** [exports.endConsultation] *)
Definition endConsultation (db : list t) (now now' : Z) (reqUser : ReqUser)
           (i : ObjectId) (notes patientNotes practitionerNotes : option string)
  : Outcome :=
  match findById db i with
  | None => (db, fail (AppError "Consultation not found" 404))
  | Some consultation =>
      if negb (practitioner consultation =? id reqUser)%nat
         && negb (Role_eqb (role reqUser) role_admin)
      then (db, fail (AppError "Only the practitioner can end the consultation" 403))
      else
        run db (Consultation.endConsultation db now notes consultation) (fun db1 c1 =>
        let c1 := if truthy patientNotes then set_patientNotes patientNotes c1 else c1 in
        let c1 := if truthy practitionerNotes
                  then set_practitionerNotes practitionerNotes c1 else c1 in
        run db1 (save db1 now' c1) (fun db2 c2 =>
        (db2, ok c2)))
  end.

(** [exports.joinConsultation] *)
Definition joinConsultation (db : list t) (now : Z) (reqUser : ReqUser) (i : ObjectId)
  : Outcome :=
  match findById db i with
  | None => (db, fail (AppError "Consultation not found" 404))
  | Some consultation =>
      if notParticipantOrAdmin reqUser consultation
      then (db, fail (AppError "Not authorized to join this consultation" 403))
      else
        run db (addParticipant db now (id reqUser) consultation) (fun db1 c1 =>
        (db1, ok c1))
  end.

(** [exports.leaveConsultation] *)
Definition leaveConsultation (db : list t) (now : Z) (reqUser : ReqUser) (i : ObjectId)
  : Outcome :=
  match findById db i with
  | None => (db, fail (AppError "Consultation not found" 404))
  | Some consultation =>
      run db (removeParticipant db now (id reqUser) consultation) (fun db1 c1 =>
      (db1, ok c1))
  end.

(** The [type] of a notes request: ['patient'], ['practitioner'], or
    anything else. *)
Inductive NotesType := type_patient | type_practitioner | type_other.

(** [exports.addNotes] *)
Definition addNotes (db : list t) (now : Z) (reqUser : ReqUser) (i : ObjectId)
           (notes : option string) (type : NotesType) : Outcome :=
  match findById db i with
  | None => (db, fail (AppError "Consultation not found" 404))
  | Some consultation =>
      if notParticipantOrAdmin reqUser consultation
      then (db, fail (AppError "Not authorized to add notes to this consultation" 403))
      else
        let consultation :=
          match type with
          | type_patient =>
              if (patient consultation =? id reqUser)%nat
              then set_patientNotes notes consultation
              else set_notes notes consultation
          | type_practitioner =>
              if (practitioner consultation =? id reqUser)%nat
              then set_practitionerNotes notes consultation
              else set_notes notes consultation
          | type_other => set_notes notes consultation
          end in
        run db (save db now consultation) (fun db1 c1 => (db1, ok c1))
  end.

(** [if (technicalRating)]: a number that is neither missing nor zero. *)
Definition truthyNumber (n : option Z) : bool :=
  match n with
  | Some v => negb (v =? 0)
  | None => false
  end.

(** [exports.submitFeedback] *)
Definition submitFeedback (db : list t) (now : Z) (reqUser : ReqUser) (i : ObjectId)
           (rating : option Z) (feedbackText : option string)
           (technical : option Z) : Outcome :=
  match findById db i with
  | None => (db, fail (AppError "Consultation not found" 404))
  | Some consultation =>
      if negb (patient consultation =? id reqUser)%nat
         && negb (practitioner consultation =? id reqUser)%nat
      then (db, fail (AppError "Not authorized to submit feedback for this consultation" 403))
      else
        let f := feedback consultation in
        let f :=
          if (patient consultation =? id reqUser)%nat
          then mkFeedback rating feedbackText (practitionerRating f)
                          (practitionerFeedback f) (technicalRating f)
          else if (practitioner consultation =? id reqUser)%nat
          then mkFeedback (patientRating f) (patientFeedback f) rating feedbackText
                          (technicalRating f)
          else f in
        let f :=
          if truthyNumber technical
          then mkFeedback (patientRating f) (patientFeedback f) (practitionerRating f)
                          (practitionerFeedback f) technical
          else f in
        run db (save db now (set_feedback f consultation)) (fun db1 c1 => (db1, ok c1))
  end.

End consultationController.

(** * The rest of the controllers, the routes and the booking page *)

(** ** Query cursors *)

Module Query.

(** [.sort({ key: 1 })]: ascending in [key].  Documents with equal keys
    keep their insertion order here; MongoDB does not fix their order. *)
Fixpoint insertBy {A} (key : A -> Z) (x : A) (l : list A) : list A :=
  match l with
  | [] => [x]
  | y :: l' => if key x <=? key y then x :: l else y :: insertBy key x l'
  end.

Definition sortBy {A} (key : A -> Z) (l : list A) : list A :=
  fold_right (insertBy key) [] l.

(** [.sort({ key: -1 })] *)
Definition sortByDesc {A} (key : A -> Z) (l : list A) : list A :=
  sortBy (fun x => - key x) l.

(** [.limit(limit).skip(skip)]: the server skips first, then limits. *)
Definition window {A} (skip limit : nat) (l : list A) : list A :=
  firstn limit (skipn skip l).

(** [.populate(path)] on a reference to a user: the user document, or
    [null] when none has that [_id]. *)
Definition populate (users : list User) (ref : ObjectId) : option User :=
  find (fun u => (user_id u =? ref)%nat) users.

(** Reading [x._id] where [x] may be [null]. *)
Definition idOfPopulated (x : option User) : Result ObjectId :=
  match x with
  | Some u => ok (user_id u)
  | None => fail (TypeError "Cannot read properties of null (reading '_id')")
  end.

End Query.

(** ** controllers/appointmentController.js: the read handlers *)

Module appointmentReads.

Import Appointment.

(** The payload [{ results, data: { appointments } }]. *)
Record Listing := mkListing {
  results : nat;
  appointments : list t
}.

Definition listing (l : list t) : Listing := mkListing (List.length l) l.

(** [exports.getAllAppointments] *)
Definition getAllAppointments (db : list t) : Listing :=
  listing (Query.sortBy startTime db).

(** [exports.getMyAppointments] *)
Definition getMyAppointments (db : list t) (reqUser : ReqUser) : Listing :=
  listing (Query.sortBy startTime (filter (fun a => (patient a =? id reqUser)%nat) db)).

(** [exports.getAdminAppointments] *)
Definition getAdminAppointments (db : list t) (reqUser : ReqUser) : Listing :=
  listing (Query.sortBy startTime (filter (fun a => (admin a =? id reqUser)%nat) db)).

(** [exports.getAppointment].  The right operand of the access test reads
    the populated patient, and is evaluated only for the role ['user']. *)
Definition getAppointment (users : list User) (db : list t) (reqUser : ReqUser)
           (i : ObjectId) : Result t :=
  match findById db i with
  | None => fail (AppError "No appointment found with that ID" 404)
  | Some appointment =>
      if Role_eqb (role reqUser) role_user
      then
        p <- Query.idOfPopulated (Query.populate users (patient appointment)) ;;
        if negb (p =? id reqUser)%nat
        then fail (AppError "You do not have access to this appointment" 403)
        else ok appointment
      else ok appointment
  end.

End appointmentReads.

(** ** routes/appointmentRoutes.js *)

Module appointmentRoutes.

Inductive Method := GET | POST | PATCH | DELETE.

Definition Method_eqb (a b : Method) : bool :=
  match a, b with
  | GET, GET | POST, POST | PATCH, PATCH | DELETE, DELETE => true
  | _, _ => false
  end.

(** A segment of a route path: a literal, or a parameter such as [:id]. *)
Inductive Segment := lit (s : string) | param (name : string).

Inductive Handler :=
| getMyAppointments | getAvailableSlots | createAppointment
| getAppointment | updateAppointment | cancelAppointment
| getAllAppointments | getAdminAppointments.

(** One registration on the router: the method, the path, the roles of a
    [restrictTo] in front of the handler (if any), and the handler. *)
Record Route := mkRoute {
  r_method : Method;
  r_path : list Segment;
  r_restrictTo : option (list Role);
  r_handler : Handler
}.

(** The registrations, in the order of the file. *)
Definition routes : list Route :=
  [ mkRoute GET [lit "my-appointments"] None getMyAppointments;
    mkRoute GET [lit "available-slots"] None getAvailableSlots;
    mkRoute POST [] None createAppointment;
    mkRoute GET [param "id"] None getAppointment;
    mkRoute PATCH [param "id"] None updateAppointment;
    mkRoute PATCH [param "id"; lit "cancel"] None cancelAppointment;
    mkRoute GET [lit "all"] (Some [role_admin; role_staff]) getAllAppointments;
    mkRoute GET [lit "admin"] (Some [role_admin]) getAdminAppointments ].

(** Express compares literals without regard to case. *)
Definition lowerChar (c : ascii) : ascii :=
  let n := nat_of_ascii c in
  if ((65 <=? n) && (n <=? 90))%nat then ascii_of_nat (n + 32) else c.

Fixpoint lower (s : string) : string :=
  match s with
  | EmptyString => EmptyString
  | String c s' => String (lowerChar c) (lower s')
  end.

Definition matchSegment (seg : Segment) (s : string) : bool :=
  match seg with
  | lit l => String.eqb (lower l) (lower s)
  | param _ => negb (String.eqb s EmptyString)
  end.

(** A route path matches a request path (its list of segments) when they
    have the same length and match segment by segment. *)
Fixpoint matchPath (pattern : list Segment) (path : list string) : bool :=
  match pattern, path with
  | [], [] => true
  | seg :: pattern', s :: path' => matchSegment seg s && matchPath pattern' path'
  | _, _ => false
  end.

(** The router hands the request to the first registration whose method
    and path match; a handler answers or fails, it never passes the
    request on to a later registration. *)
Definition dispatch (m : Method) (path : list string) : option Route :=
  find (fun r => Method_eqb (r_method r) m && matchPath (r_path r) path) routes.

End appointmentRoutes.

(** ** pages/appointments/book.tsx *)

Module bookingPage.

Import Appointment appointmentController.

(** The [duration] of [handleSubmit], in minutes. *)
Definition duration (appointmentType : AppointmentType) : Z :=
  match appointmentType with
  | fitting => 90
  | consultation => 60
  | follow_up | virtual_consultation => 45
  | _ => 30
  end.

(** [new Date(slot.startTime).toTimeString().slice(0, 5)]: the hour and the
    minute of the slot's start on the local clock. *)
Definition slotTime (tz : Z) (slot : Slot) : Z * Z :=
  (JSDate.HourFromTime (JSDate.LocalTime tz (slot_startTime slot)),
   JSDate.MinFromTime (JSDate.LocalTime tz (slot_startTime slot))).

Definition isVirtualType (ty : AppointmentType) : bool :=
  match ty with virtual_consultation => true | _ => false end.

(** [handleSubmit]: the body posted to [/appointments], or [None] when the
    form refuses to submit.  [selectedDate] is the time value of
    [new Date(formData.selectedDate)], [selectedTime] the hour and minute
    picked. *)
Definition handleSubmit (tz : Z) (appointmentType : AppointmentType)
           (selectedDate : Z) (selectedTime : Z * Z) (reason : string)
           (isVirtual : bool) : option Body :=
  if String.eqb (Consultation.trimEnd (Consultation.trimStart reason)) EmptyString
  then None
  else
    let (hours, minutes) := selectedTime in
    let startTime := JSDate.setHours tz selectedDate hours minutes 0 0 in
    let endTime :=
      JSDate.setMinutes tz startTime
                        (JSDate.getMinutes tz startTime + duration appointmentType) in
    Some (mkBody (Some appointmentType) (Some startTime) (Some endTime) (Some reason)
                 (Some (isVirtual || isVirtualType appointmentType))).

End bookingPage.

(** ** models/Consultation.js and controllers/consultationController.js:
    the virtual, the statics and the read handlers *)

Module consultationReads.

Import Consultation consultationController.

(** The virtual [calculatedDuration]; [None] is [null]. *)
Definition calculatedDuration (this : t) : option Z :=
  match actualStartTime this, actualEndTime this with
  | Some _, Some _ =>
      match roundMinutes (dateDiff (actualEndTime this) (actualStartTime this)) with
      | Int d => Some d
      | NaN => None
      end
  | _, _ => None
  end.

Definition Status_eqb (a b : Status) : bool :=
  match a, b with
  | scheduled, scheduled | active, active | completed, completed
  | cancelled, cancelled => true
  | _, _ => false
  end.

(** The clause [$or: [{ patient: userId }, { practitioner: userId }]]. *)
Definition involves (userId : ObjectId) (c : t) : bool :=
  (patient c =? userId)%nat || (practitioner c =? userId)%nat.

(** [consultationSchema.statics.findActiveForUser] *)
Definition findActiveForUser (db : list t) (userId : ObjectId) : list t :=
  filter (fun c => involves userId c && Status_eqb (status c) active) db.

(** [consultationSchema.statics.findUpcoming]; [now] is the value of
    [new Date()], [limit] the positive limit ([None]: the default). *)
Definition findUpcoming (db : list t) (now : Z) (userId : ObjectId)
           (limit : option positive) : list t :=
  let limit := match limit with Some l => l | None => 10%positive end in
  firstn (Pos.to_nat limit)
         (Query.sortBy startTime
            (filter (fun c => involves userId c
                              && Status_eqb (status c) scheduled
                              && (now <=? startTime c))
                    db)).

(** The access test of the two read handlers, on the populated document:
    the conjunction is evaluated left to right and stops at the first false
    operand. *)
Definition authorizeRead (users : list User) (reqUser : ReqUser) (consultation : t)
  : Result unit :=
  p <- Query.idOfPopulated (Query.populate users (patient consultation)) ;;
  if negb (p =? id reqUser)%nat
  then
    q <- Query.idOfPopulated (Query.populate users (practitioner consultation)) ;;
    if negb (q =? id reqUser)%nat && negb (Role_eqb (role reqUser) role_admin)
    then fail (AppError "Not authorized to access this consultation" 403)
    else ok tt
  else ok tt.

(** [exports.getConsultation] *)
Definition getConsultation (users : list User) (db : list t) (reqUser : ReqUser)
           (i : ObjectId) : Result t :=
  match findById db i with
  | None => fail (AppError "Consultation not found" 404)
  | Some consultation => authorizeRead users reqUser consultation ;;; ok consultation
  end.

(** [Consultation.findOne({ roomId })] *)
Definition findByRoom (db : list t) (room : string) : option t :=
  find (fun c => match roomId c with
                 | Some r => String.eqb r room
                 | None => false
                 end) db.

(** [exports.getConsultationByRoom] *)
Definition getConsultationByRoom (users : list User) (db : list t) (reqUser : ReqUser)
           (room : string) : Result t :=
  match findByRoom db room with
  | None => fail (AppError "Consultation room not found" 404)
  | Some consultation => authorizeRead users reqUser consultation ;;; ok consultation
  end.

(** The query parameter [status]: absent (or empty), a status of the enum,
    or any other string. *)
Inductive StatusParam := no_status | status_is (s : Status) | status_other.

Definition statusMatches (p : StatusParam) (c : t) : bool :=
  match p with
  | no_status => true
  | status_is s => Status_eqb (status c) s
  | status_other => false
  end.

(** The payload of [getMyConsultations]. *)
Record Page := mkPage {
  results : nat;
  totalPages : nat;
  currentPage : positive;
  consultations : list t
}.

(** [exports.getMyConsultations], for a positive [limit] and [page]
    ([None]: the defaults 10 and 1).  [Math.ceil(total / limit)] is the
    quotient rounded up. *)
Definition getMyConsultations (db : list t) (reqUser : ReqUser) (status : StatusParam)
           (limit page : option positive) : Page :=
  let limit := match limit with Some l => l | None => 10%positive end in
  let page := match page with Some p => p | None => 1%positive end in
  let query := fun c => involves (id reqUser) c && statusMatches status c in
  let consultations :=
    Query.window ((Pos.to_nat page - 1) * Pos.to_nat limit) (Pos.to_nat limit)
                 (Query.sortByDesc startTime (filter query db)) in
  let total := List.length (filter query db) in
  mkPage (List.length consultations)
         ((total + Pos.to_nat limit - 1) / Pos.to_nat limit)%nat
         page
         consultations.

End consultationReads.

(** * Specification vocabulary *)

Module Spec.

Import Appointment appointmentController.

(** Two appointments have intersecting half-open intervals. *)
Definition Overlap (a b : Appointment.t) : Prop :=
  startTime a < endTime b /\ startTime b < endTime a.

(** The no-overlap invariant of the appointments collection. *)
Definition NoOverlap (db : list Appointment.t) : Prop :=
  forall a b, In a db -> In b db -> _id a <> _id b ->
    status a <> cancelled -> status b <> cancelled ->
    admin a = admin b \/ patient a = patient b ->
    ~ Overlap a b.

(** Collections reachable from the empty one by successful requests. *)
Inductive reachable (users : list User) : list Appointment.t -> Prop :=
| reach_empty : reachable users []
| reach_create db newId reqUser body now db' a :
    reachable users db ->
    createAppointment users db newId reqUser body now = ok (db', a) ->
    reachable users db'
| reach_update db reqUser i body db' a :
    reachable users db ->
    updateAppointment db reqUser i body = ok (db', a) ->
    reachable users db'
| reach_cancel db reqUser i reason now db' a :
    reachable users db ->
    cancelAppointment db reqUser i reason now = ok (db', a) ->
    reachable users db'.


(** The slot of the daily template for [hour] on the day of [date]. *)
Definition templateSlot (tz date hour : Z) : Slot :=
  mkSlot (startOfDay tz date + hour * JSDate.msPerHour)
         (startOfDay tz date + hour * JSDate.msPerHour + 60 * JSDate.msPerMinute).

(** The test that lets the iteration for [hour] push its slot. *)
Definition keeps (tz : Z) (existing : list Appointment.t) (clock : Z -> Z)
           (date hour : Z) : bool :=
  negb (existsb (conflicts (slotStart tz date hour) (slotEnd tz date hour)) existing)
  && (slotStart tz date hour >? clock hour).

(** The slot the iteration for [hour] builds. *)
Definition slotOf (tz date hour : Z) : Slot :=
  mkSlot (slotStart tz date hour) (slotEnd tz date hour).

(** A slot and an appointment intersect. *)
Definition Intersects (s : Slot) (a : Appointment.t) : Prop :=
  slot_startTime s < endTime a /\ slot_endTime s > startTime a.

(** The interval of an appointment meets the calendar day of [date]. *)
Definition MeetsDay (tz date : Z) (a : Appointment.t) : Prop :=
  startTime a <= endOfDay tz date /\ startOfDay tz date < endTime a.

(** The slot query as the specification words it: no returned slot
    intersects a non-cancelled appointment of the resolved admin whose
    interval meets the requested day. *)
Definition AvoidsAppointmentsOfDay (tz : Z) (users : list User)
           (db : list Appointment.t) (clock : Z -> Z) (date : Z) : Prop :=
  forall adminUser slots,
    findActiveAdmin users = Some adminUser ->
    getAvailableSlots tz users db clock (Some date) = ok slots ->
    forall s a, In s slots -> In a db ->
      admin a = user_id adminUser -> status a <> cancelled ->
      MeetsDay tz date a -> ~ Intersects s a.

(** An appointment of the admin that starts on the requested day and is
    not cancelled: what the query of [getAvailableSlots] selects. *)
Definition StartsOnDay (tz : Z) (adminId : ObjectId) (date : Z) (a : Appointment.t) : Prop :=
  admin a = adminId /\ startOfDay tz date <= startTime a <= endOfDay tz date
  /\ status a <> cancelled.

(** The record of an appointment cancelled at [now] for [reason]. *)
Definition Cancelled (a' : Appointment.t) (now : Z) (reason : option string) : Prop :=
  status a' = cancelled
  /\ cancelledAt a' = Some now
  /\ cancellationReason a'
     = Some (match reason with
             | Some r => if String.eqb r EmptyString then "No reason provided"%string else r
             | None => "No reason provided"%string
             end).





(** ** Sample data: 10 June 2025, server in UTC *)

Definition june10 : Z := 1749513600000.
Definition at_ (h m : Z) : Z := june10 + h * JSDate.msPerHour + m * JSDate.msPerMinute.

Definition theAdmin : User := mkUser 1%nat role_admin true.
Definition sampleUsers : list User :=
  [mkUser 7%nat role_user true; theAdmin; mkUser 8%nat role_user true;
   mkUser 9%nat role_user true].
Definition alice : ReqUser := mkReqUser 7%nat role_user.
Definition bob : ReqUser := mkReqUser 8%nat role_user.
Definition carol : ReqUser := mkReqUser 9%nat role_user.

Definition booking (h1 m1 h2 m2 : Z) : Body :=
  mkBody (Some fitting) (Some (at_ h1 m1)) (Some (at_ h2 m2)) (Some "fitting"%string) None.

Definition appt (i p : ObjectId) (st : Status) (s e : Z) : Appointment.t :=
  Appointment.mk i p 1%nat fitting st s e "fitting" false None None.

(** An appointment from 23:00 of 9 June to 09:30 of 10 June. *)
Definition overnight : Appointment.t :=
  appt 5 7 scheduled (at_ (-1) 0) (at_ 9 30).

Definition earlyClock : Z -> Z := fun _ => at_ (-2) 0.

Definition morning : Appointment.t := appt 1 7 scheduled (at_ 10 0) (at_ 11 0).
Definition noon : Appointment.t := appt 2 8 scheduled (at_ 12 0) (at_ 13 0).
Definition noonMoved : Appointment.t := appt 2 8 scheduled (at_ 10 30) (at_ 13 0).

(** The body [{ startTime: <10:30> }] of a PATCH request. *)
Definition moveTo1030 : Update :=
  mkUpdate None None None None (Some (at_ 10 30)) None None None None None.

Definition morningCancelled : Appointment.t :=
  Appointment.mk 1 7 1 fitting cancelled (at_ 10 0) (at_ 11 0) "fitting" false
                 (Some (at_ 8 0)) (Some "No reason provided"%string).

(** ** Sample data: the same day on a server five hours west of UTC *)

(** The zone offset of a server at UTC-5: [LocalTime t = t + west5]. *)
Definition west5 : Z := - (5 * JSDate.msPerHour).

(** A request handled at 08:00 of 10 June on the clock of that server,
    which is 13:00 UTC. *)
Definition eightOnJune10 : Z -> Z := fun _ => at_ 13 0.

End Spec.

Module ConsultationSpec.

Import Consultation consultationController.

(** A record on which the duration hook has nothing left to do: the form
    in which every save leaves a record. *)
Definition Settled (c : Consultation.t) : Prop := preSaveDuration c = c.

(** Two records agree on every path but [duration]. *)
Definition SameButDuration (c c' : Consultation.t) : Prop :=
  set_duration (duration c) c' = c.

(** The end transition as the specification words it: it goes through
    from whatever state the consultation is in. *)
Definition EndsFromAnyState : Prop :=
  forall db now notes c,
    validate c = ok tt ->
    exists db' c',
      Consultation.endConsultation db now notes c = ok (db', c')
      /\ status c' = completed /\ actualEndTime c' = Some now.

(** ** Sample data *)

Definition noFeedback : Feedback := mkFeedback None None None None None.

(** A consultation of patient 7 with practitioner 1, not yet started. *)
Definition room (st : Status) (ps : list Participant) : Consultation.t :=
  Consultation.mk 50 1 7 1 (Some "consultation_50_1749513600000"%string) st
                  1749549600000 (Some 1749553200000) None None None None None None
                  ps noFeedback.

(** The same consultation after a session that ran from 10:00 to 10:40. *)
Definition finishedRoom : Consultation.t :=
  Consultation.mk 50 1 7 1 (Some "consultation_50_1749513600000"%string) completed
                  1749549600000 (Some 1749553200000)
                  (Some 1749549600000) (Some 1749552000000) (Some 40)
                  None None None [] noFeedback.

Definition alice : ReqUser := mkReqUser 7 role_user.
Definition carol : ReqUser := mkReqUser 9 role_user.

End ConsultationSpec.

(** * Properties *)

Import Appointment appointmentController Spec.

(** ** Dates *)

Lemma startOfDay_eq tz date :
  startOfDay tz date = (date + tz) / JSDate.msPerDay * JSDate.msPerDay - tz.
Proof.
  unfold startOfDay, JSDate.setHours, JSDate.UTC, JSDate.MakeDate, JSDate.MakeTime,
    JSDate.LocalTime, JSDate.Day.
  lia.
Qed.

Lemma day_of_startOfDay tz date k :
  0 <= k < JSDate.msPerDay ->
  (startOfDay tz date + k + tz) / JSDate.msPerDay = (date + tz) / JSDate.msPerDay.
Proof.
  intros Hk. rewrite startOfDay_eq.
  symmetry. apply Z.div_unique with (r := k); lia.
Qed.

Lemma endOfDay_eq tz date :
  endOfDay tz date = startOfDay tz date + 86399999.
Proof.
  unfold endOfDay, JSDate.setHours, JSDate.UTC, JSDate.MakeDate, JSDate.MakeTime,
    JSDate.LocalTime, JSDate.Day.
  pose proof (day_of_startOfDay tz date 0) as H.
  rewrite Z.add_0_r in H. rewrite H by (unfold JSDate.msPerDay; lia).
  rewrite startOfDay_eq.
  unfold JSDate.msPerDay, JSDate.msPerHour, JSDate.msPerMinute, JSDate.msPerSecond. lia.
Qed.

Lemma slotStart_eq tz date hour :
  slotStart tz date hour = startOfDay tz date + hour * JSDate.msPerHour.
Proof.
  unfold slotStart, JSDate.setHours, JSDate.UTC, JSDate.MakeDate, JSDate.MakeTime,
    JSDate.LocalTime, JSDate.Day.
  rewrite endOfDay_eq.
  pose proof (day_of_startOfDay tz date 86399999) as H.
  rewrite H by (unfold JSDate.msPerDay; lia).
  rewrite startOfDay_eq. lia.
Qed.

Lemma slotEnd_eq tz date hour :
  0 <= hour < 24 ->
  slotEnd tz date hour = startOfDay tz date + hour * JSDate.msPerHour + 60 * JSDate.msPerMinute.
Proof.
  intros Hh. unfold slotEnd. rewrite slotStart_eq.
  set (D := (date + tz) / JSDate.msPerDay).
  assert (Hlt : JSDate.LocalTime tz (startOfDay tz date + hour * JSDate.msPerHour)
                = D * JSDate.msPerDay + hour * JSDate.msPerHour).
  { unfold JSDate.LocalTime. rewrite startOfDay_eq. fold D. lia. }
  unfold JSDate.setMinutes, JSDate.getMinutes. rewrite Hlt.
  assert (Hday : JSDate.Day (D * JSDate.msPerDay + hour * JSDate.msPerHour) = D).
  { unfold JSDate.Day. symmetry.
    apply Z.div_unique with (r := hour * JSDate.msPerHour);
      unfold JSDate.msPerDay, JSDate.msPerHour; lia. }
  assert (Hhour : JSDate.HourFromTime (D * JSDate.msPerDay + hour * JSDate.msPerHour) = hour).
  { unfold JSDate.HourFromTime.
    replace ((D * JSDate.msPerDay + hour * JSDate.msPerHour) / JSDate.msPerHour)
      with (D * 24 + hour).
    - symmetry. apply Z.mod_unique with (q := D); lia.
    - apply Z.div_unique with (r := 0); unfold JSDate.msPerDay, JSDate.msPerHour; lia. }
  assert (Hmin : JSDate.MinFromTime (D * JSDate.msPerDay + hour * JSDate.msPerHour) = 0).
  { unfold JSDate.MinFromTime.
    replace ((D * JSDate.msPerDay + hour * JSDate.msPerHour) / JSDate.msPerMinute)
      with ((D * 24 + hour) * 60).
    - symmetry. apply Z.mod_unique with (q := D * 24 + hour); lia.
    - apply Z.div_unique with (r := 0);
        unfold JSDate.msPerDay, JSDate.msPerHour, JSDate.msPerMinute; lia. }
  assert (Hsec : JSDate.SecFromTime (D * JSDate.msPerDay + hour * JSDate.msPerHour) = 0).
  { unfold JSDate.SecFromTime.
    replace ((D * JSDate.msPerDay + hour * JSDate.msPerHour) / JSDate.msPerSecond)
      with ((D * 24 + hour) * 60 * 60).
    - symmetry. apply Z.mod_unique with (q := (D * 24 + hour) * 60); lia.
    - apply Z.div_unique with (r := 0);
        unfold JSDate.msPerDay, JSDate.msPerHour, JSDate.msPerSecond; lia. }
  assert (Hms : JSDate.msFromTime (D * JSDate.msPerDay + hour * JSDate.msPerHour) = 0).
  { unfold JSDate.msFromTime. symmetry.
    apply Z.mod_unique with (q := (D * 24 + hour) * 3600);
      unfold JSDate.msPerDay, JSDate.msPerHour, JSDate.msPerSecond; lia. }
  rewrite Hday, Hhour, Hmin, Hsec, Hms.
  unfold JSDate.UTC, JSDate.MakeDate, JSDate.MakeTime. rewrite startOfDay_eq. fold D.
  unfold workingHours, slotDuration.
  unfold JSDate.msPerDay, JSDate.msPerHour, JSDate.msPerMinute, JSDate.msPerSecond. lia.
Qed.

Lemma hours_workingHours : hours workingHours = [9; 10; 11; 12; 13; 14; 15; 16].
Proof. reflexivity. Qed.

Lemma hours_workingHours_range hour :
  In hour (hours workingHours) -> 9 <= hour < 17.
Proof. rewrite hours_workingHours. simpl. lia. Qed.

(** ** Lists *)

Lemma filter_none {A} (f : A -> bool) (l : list A) :
  (forall x, In x l -> f x = false) -> filter f l = [].
Proof.
  induction l as [|x l IH]; intros H; simpl; [reflexivity|].
  rewrite (H x (or_introl eq_refl)). apply IH. intros y Hy. apply H. now right.
Qed.

Lemma filter_all {A} (f : A -> bool) (l : list A) :
  (forall x, In x l -> f x = true) -> filter f l = l.
Proof.
  induction l as [|x l IH]; intros H; simpl; [reflexivity|].
  rewrite (H x (or_introl eq_refl)). f_equal. apply IH. intros y Hy. apply H. now right.
Qed.

(** ** The slot loop *)

Section SlotLoop.

Variable tz : Z.

Lemma slot_loop_filter existing clock date hs acc :
  fold_left
    (fun availableSlots hour =>
       slotStep tz existing date (clock hour) availableSlots hour) hs acc
  = acc ++ map (slotOf tz date) (filter (keeps tz existing clock date) hs).
Proof.
  revert acc. induction hs as [|h hs IH]; intros acc; simpl.
  - now rewrite app_nil_r.
  - rewrite IH. unfold slotStep, keeps at 2.
    destruct (negb _ && _); simpl.
    + now rewrite <- app_assoc.
    + reflexivity.
Qed.

Lemma getAvailableSlots_unfold users db clock date adminUser :
  findActiveAdmin users = Some adminUser ->
  getAvailableSlots tz users db clock (Some date)
  = ok (map (slotOf tz date)
            (filter (keeps tz (filter (onSelectedDate tz (user_id adminUser) date) db)
                           clock date)
                    (hours workingHours))).
Proof.
  intros Hadmin. unfold getAvailableSlots. rewrite Hadmin.
  now rewrite slot_loop_filter.
Qed.

Lemma slotOf_template date hour :
  0 <= hour < 24 -> slotOf tz date hour = templateSlot tz date hour.
Proof.
  intros Hh. unfold slotOf, templateSlot.
  now rewrite slotEnd_eq, slotStart_eq by assumption.
Qed.

Lemma conflicts_spec s e a :
  conflicts s e a = true <-> s < endTime a /\ e > startTime a.
Proof. unfold conflicts. rewrite andb_true_iff, Z.ltb_lt, Z.gtb_gt. tauto. Qed.

Lemma onSelectedDate_spec adminId date a :
  onSelectedDate tz adminId date a = true <->
  admin a = adminId /\ startOfDay tz date <= startTime a <= endOfDay tz date
  /\ status a <> cancelled.
Proof.
  unfold onSelectedDate.
  rewrite !andb_true_iff, Nat.eqb_eq, !Z.leb_le, negb_true_iff.
  destruct (status a); simpl; intuition congruence.
Qed.

Lemma keeps_spec existing clock date hour :
  keeps tz existing clock date hour = true <->
  (forall a, In a existing ->
             ~ (slotStart tz date hour < endTime a /\ slotEnd tz date hour > startTime a))
  /\ clock hour < slotStart tz date hour.
Proof.
  unfold keeps. rewrite andb_true_iff, negb_true_iff, Z.gtb_gt.
  split; intros [H1 H2]; split; try lia.
  - intros a Ha Hc. apply conflicts_spec in Hc.
    assert (existsb (conflicts (slotStart tz date hour) (slotEnd tz date hour)) existing = true)
      by (apply existsb_exists; eauto).
    congruence.
  - destruct (existsb _ existing) eqn:E; [|reflexivity].
    apply existsb_exists in E. destruct E as [a [Ha Hc]].
    apply conflicts_spec in Hc. exfalso. exact (H1 a Ha Hc).
Qed.

End SlotLoop.

(** The free day, relative to the day the code itself computes from the
    date ([startOfDay], the server-local midnight at or before the parsed
    instant).  With an active admin resolved, no non-cancelled appointment
    of that admin starting on that day, and every reading of the clock
    during the request before 09:00 of that day, [getAvailableSlots]
    returns exactly the eight template slots 09:00, 10:00, ..., 16:00, each
    60 minutes long, in chronological order. *)
Theorem getAvailableSlots_free_day tz users db clock date adminUser :
  findActiveAdmin users = Some adminUser ->
  (forall a, In a db -> admin a = user_id adminUser -> status a <> cancelled ->
             ~ (startOfDay tz date <= startTime a <= endOfDay tz date)) ->
  (forall hour, clock hour < startOfDay tz date + 9 * JSDate.msPerHour) ->
  getAvailableSlots tz users db clock (Some date)
  = ok (map (templateSlot tz date) [9; 10; 11; 12; 13; 14; 15; 16])
  /\ (forall s, In s (map (templateSlot tz date) [9; 10; 11; 12; 13; 14; 15; 16]) ->
                slot_endTime s - slot_startTime s = 60 * JSDate.msPerMinute).
Proof.
  intros Hadmin Hfree Hclock. split.
  - rewrite (getAvailableSlots_unfold tz users db clock date adminUser Hadmin).
    assert (Hnone : filter (onSelectedDate tz (user_id adminUser) date) db = []).
    { apply filter_none. intros a Ha.
      destruct (onSelectedDate _ _ _ a) eqn:E; [|reflexivity].
      apply onSelectedDate_spec in E. destruct E as (E1 & E2 & E3).
      exfalso. exact (Hfree a Ha E1 E3 E2). }
    rewrite Hnone.
    assert (Hall : filter (keeps tz [] clock date) (hours workingHours) = hours workingHours).
    { apply filter_all. intros h Hh.
      apply keeps_spec. split.
      - intros a [].
      - rewrite slotStart_eq. apply hours_workingHours_range in Hh.
        specialize (Hclock h). unfold JSDate.msPerHour in *. lia. }
    rewrite Hall, hours_workingHours. f_equal.
    apply map_ext_in. intros h Hh. apply slotOf_template. simpl in Hh. lia.
  - intros s Hs. apply in_map_iff in Hs. destruct Hs as [h [<- _]].
    unfold templateSlot; simpl. lia.
Qed.

Lemma getAvailableSlots_free_day_witness :
  getAvailableSlots 0 sampleUsers [appt 3 7 cancelled (at_ 10 0) (at_ 11 0)]
                    (fun _ => at_ 8 59) (Some (at_ 13 30))
  = ok (map (templateSlot 0 (at_ 13 30)) [9; 10; 11; 12; 13; 14; 15; 16])
  /\ (forall s, In s (map (templateSlot 0 (at_ 13 30)) [9; 10; 11; 12; 13; 14; 15; 16]) ->
                slot_endTime s - slot_startTime s = 60 * JSDate.msPerMinute).
Proof.
  apply (getAvailableSlots_free_day 0 sampleUsers _ _ (at_ 13 30) theAdmin).
  - reflexivity.
  - intros a [<-|[]] _ Hs. exfalso. apply Hs. reflexivity.
  - intros hour. vm_compute. reflexivity.
Defined.

Lemma templateSlot_inj tz date h h' :
  templateSlot tz date h = templateSlot tz date h' -> h = h'.
Proof.
  unfold templateSlot. intros H. injection H as H _.
  unfold JSDate.msPerHour in H. lia.
Qed.

(** What the filter of the loop does achieve.  Every returned slot
    intersects no non-cancelled appointment of the resolved admin that
    starts on the day computed from the date (the appointments the query
    selects); the template slot of an hour is
    returned exactly when no such appointment satisfies
    [slotStart < endTime] and [slotEnd > startTime] and the slot starts after
    the clock reading of its iteration; and nothing but template slots is
    returned. *)
Theorem getAvailableSlots_avoids_day_starts tz users db clock date adminUser slots :
  findActiveAdmin users = Some adminUser ->
  getAvailableSlots tz users db clock (Some date) = ok slots ->
  (forall s a, In s slots -> In a db ->
     StartsOnDay tz (user_id adminUser) date a -> ~ Intersects s a)
  /\ (forall hour, In hour (hours workingHours) ->
        (In (templateSlot tz date hour) slots <->
         (forall a, In a db -> StartsOnDay tz (user_id adminUser) date a ->
                    ~ Intersects (templateSlot tz date hour) a)
         /\ clock hour < slot_startTime (templateSlot tz date hour)))
  /\ (forall s, In s slots ->
        exists hour, In hour (hours workingHours) /\ s = templateSlot tz date hour).
Proof.
  intros Hadmin Hrun.
  rewrite (getAvailableSlots_unfold tz users db clock date adminUser Hadmin) in Hrun.
  injection Hrun as <-.
  set (existing := filter (onSelectedDate tz (user_id adminUser) date) db).
  assert (Hex : forall a, In a existing <-> In a db /\ StartsOnDay tz (user_id adminUser) date a).
  { intros a. unfold existing. rewrite filter_In, onSelectedDate_spec. reflexivity. }
  assert (Hin : forall s,
             In s (map (slotOf tz date) (filter (keeps tz existing clock date) (hours workingHours)))
             <-> exists hour, In hour (hours workingHours)
                              /\ keeps tz existing clock date hour = true
                              /\ s = templateSlot tz date hour).
  { intros s. rewrite in_map_iff. split.
    - intros [h [<- Hh]]. apply filter_In in Hh. destruct Hh as [Hh Hk].
      exists h. repeat split; try assumption.
      apply slotOf_template. apply hours_workingHours_range in Hh. lia.
    - intros [h (Hh & Hk & ->)]. exists h. split.
      + apply slotOf_template. apply hours_workingHours_range in Hh. lia.
      + apply filter_In. now split. }
  assert (Hkeep : forall hour, In hour (hours workingHours) ->
             (keeps tz existing clock date hour = true <->
              (forall a, In a db -> StartsOnDay tz (user_id adminUser) date a ->
                         ~ Intersects (templateSlot tz date hour) a)
              /\ clock hour < slot_startTime (templateSlot tz date hour))).
  { intros h Hh. rewrite keeps_spec.
    assert (R : 0 <= h < 24) by (apply hours_workingHours_range in Hh; lia).
    unfold Intersects, templateSlot; simpl.
    rewrite slotEnd_eq, slotStart_eq by exact R.
    split; intros [H1 H2]; (split; [|exact H2]).
    - intros a Ha Hs. apply H1. apply Hex. now split.
    - intros a Ha. apply Hex in Ha. destruct Ha as [Ha Hs]. now apply H1. }
  split; [|split].
  - intros s a Hs Ha Hday. apply Hin in Hs. destruct Hs as [h (Hh & Hk & ->)].
    apply (Hkeep h Hh) in Hk. destruct Hk as [Hk _]. now apply Hk.
  - intros h Hh. rewrite Hin. rewrite <- (Hkeep h Hh). split.
    + intros [h' (Hh' & Hk & E)]. apply templateSlot_inj in E. now subst h'.
    + intros Hk. exists h. repeat split; assumption.
  - intros s Hs. apply Hin in Hs. destruct Hs as [h (Hh & _ & ->)]. now exists h.
Qed.

Lemma getAvailableSlots_avoids_day_starts_witness :
  (forall s a, In s [templateSlot 0 june10 9; templateSlot 0 june10 16] ->
     In a [appt 3 7 scheduled (at_ 10 0) (at_ 15 30)] ->
     StartsOnDay 0 (user_id theAdmin) june10 a -> ~ Intersects s a)
  /\ (forall hour, In hour (hours workingHours) ->
        (In (templateSlot 0 june10 hour) [templateSlot 0 june10 9; templateSlot 0 june10 16] <->
         (forall a, In a [appt 3 7 scheduled (at_ 10 0) (at_ 15 30)] ->
                    StartsOnDay 0 (user_id theAdmin) june10 a ->
                    ~ Intersects (templateSlot 0 june10 hour) a)
         /\ earlyClock hour < slot_startTime (templateSlot 0 june10 hour)))
  /\ (forall s, In s [templateSlot 0 june10 9; templateSlot 0 june10 16] ->
        exists hour, In hour (hours workingHours) /\ s = templateSlot 0 june10 hour).
Proof.
  apply (getAvailableSlots_avoids_day_starts 0 sampleUsers
           [appt 3 7 scheduled (at_ 10 0) (at_ 15 30)] earlyClock june10 theAdmin).
  - reflexivity.
  - vm_compute. reflexivity.
Defined.

(** An appointment that starts the evening before and runs into the
    morning is not selected by the query, and the 09:00 slot it covers is
    offered. *)
Lemma getAvailableSlots_overnight_counterexample :
  ~ AvoidsAppointmentsOfDay 0 sampleUsers [overnight] earlyClock june10.
Proof.
  intros H.
  apply (H theAdmin (map (templateSlot 0 june10) [9; 10; 11; 12; 13; 14; 15; 16])
           eq_refl eq_refl (templateSlot 0 june10 9) overnight).
  - left. reflexivity.
  - left. reflexivity.
  - reflexivity.
  - discriminate.
  - split; vm_compute; congruence.
  - split; vm_compute; reflexivity.
Qed.

(** C2.  The slot query misses an appointment that started before the
    requested day.  On a server in UTC the admin has one live appointment,
    from 23:00 of 9 June to 09:30 of 10 June.  Asked for 10 June,
    [getAvailableSlots] selects the admin's appointments by [startTime]
    within the day, finds none, and offers all eight slots; the 09:00 slot
    intersects the appointment, and the save guard of the same code base
    refuses a booking of that very slot as already booked. *)
Theorem getAvailableSlots_offers_slot_under_overnight_appointment :
  getAvailableSlots 0 sampleUsers [overnight] earlyClock (Some june10)
  = ok (map (templateSlot 0 june10) [9; 10; 11; 12; 13; 14; 15; 16])
  /\ admin overnight = user_id theAdmin
  /\ status overnight <> cancelled
  /\ MeetsDay 0 june10 overnight
  /\ Intersects (templateSlot 0 june10 9) overnight
  /\ createAppointment sampleUsers [overnight] 6 carol (booking 9 0 10 0) (earlyClock 9)
     = fail (HookError "Time slot is already booked" 400).
Proof.
  split; [reflexivity|]. split; [reflexivity|]. split; [discriminate|].
  split; [split; vm_compute; congruence|].
  split; [split; vm_compute; reflexivity|].
  reflexivity.
Qed.

(** C7.  On a server west of UTC the free day is not served.  The booking
    page asks for the date-only string of 10 June, which [new Date] reads
    as midnight UTC; on a server at UTC-5 that instant is 19:00 of 9 June,
    and [setHours] moves to the local midnight of 9 June.  With no
    appointment stored and the request handled at 08:00 of 10 June on the
    server's clock, before 09:00 of the requested date, the handler returns
    no slot at all: every template slot it builds lies on 9 June and is
    past.  A server in UTC answers the same request, at 08:00 of its clock,
    with the eight slots. *)
Theorem getAvailableSlots_west_of_UTC_misses_free_day :
  JSDate.Day june10 = 20249
  /\ june10 mod JSDate.msPerDay = 0
  /\ JSDate.LocalTime west5 (eightOnJune10 0)
     = JSDate.MakeDate 20249 (JSDate.MakeTime 8 0 0 0)
  /\ getAvailableSlots west5 sampleUsers [] eightOnJune10 (Some june10) = ok []
  /\ (forall hour, In hour (hours workingHours) ->
        JSDate.Day (JSDate.LocalTime west5
                      (slot_startTime (templateSlot west5 june10 hour))) = 20248)
  /\ getAvailableSlots 0 sampleUsers [] (fun _ => at_ 8 0) (Some june10)
     = ok (map (templateSlot 0 june10) [9; 10; 11; 12; 13; 14; 15; 16]).
Proof.
  split; [reflexivity|]. split; [reflexivity|]. split; [reflexivity|].
  split; [vm_compute; reflexivity|].
  split; [|vm_compute; reflexivity].
  intros hour Hh. rewrite hours_workingHours in Hh. simpl in Hh.
  repeat (destruct Hh as [<-|Hh]; [vm_compute; reflexivity|]).
  destruct Hh.
Qed.

(** ** The save guard of appointments *)

Lemma isCancelled_spec s : isCancelled s = true <-> s = cancelled.
Proof. destruct s; simpl; split; congruence. Qed.

Lemma isCancelled_false s : isCancelled s = false <-> s <> cancelled.
Proof. destruct s; simpl; split; congruence. Qed.

Lemma conflictQuery_spec this other :
  conflictQuery this other = true <->
  (admin other = admin this \/ patient other = patient this)
  /\ _id other <> _id this
  /\ status other <> cancelled
  /\ startTime other < endTime this /\ endTime other > startTime this.
Proof.
  unfold conflictQuery, overlaps.
  rewrite orb_true_iff, !andb_true_iff, !negb_true_iff, !Nat.eqb_eq, Nat.eqb_neq,
    isCancelled_false, Z.ltb_lt, Z.gtb_gt.
  tauto.
Qed.

Lemma find_none_iff {A} (f : A -> bool) (l : list A) :
  find f l = None <-> forall x, In x l -> f x = false.
Proof.
  split.
  - apply find_none.
  - intros H. destruct (find f l) eqn:E; [|reflexivity].
    apply find_some in E. destruct E as [Hin Hf]. rewrite (H a Hin) in Hf. discriminate.
Qed.

Lemma preSave_ok db this :
  preSave db this = ok tt <->
  status this = cancelled \/ forall b, In b db -> conflictQuery this b = false.
Proof.
  unfold preSave. destruct (isCancelled (status this)) eqn:C.
  - apply isCancelled_spec in C. tauto.
  - apply isCancelled_false in C. rewrite <- find_none_iff.
    destruct (find (conflictQuery this) db); split; intros H; try reflexivity.
    + discriminate.
    + destruct H; [contradiction|discriminate].
    + now right.
Qed.

Lemma preSave_conflict db this b :
  status this <> cancelled -> In b db -> conflictQuery this b = true ->
  preSave db this = fail (HookError "Time slot is already booked" 400).
Proof.
  intros C Hin Hq. unfold preSave.
  apply isCancelled_false in C. rewrite C.
  destruct (find (conflictQuery this) db) eqn:E; [reflexivity|].
  rewrite (find_none _ _ E b Hin) in Hq. discriminate.
Qed.

Lemma in_replace db this x :
  In x (replace db this) -> x = this \/ (In x db /\ _id x <> _id this).
Proof.
  unfold replace. rewrite in_map_iff. intros [y [E Hy]].
  destruct (_id y =? _id this)%nat eqn:Q.
  - now left.
  - right. subst x. apply Nat.eqb_neq in Q. now split.
Qed.

Lemma findById_replace db this x :
  findById db (_id this) = Some x -> findById (replace db this) (_id this) = Some this.
Proof.
  unfold findById, replace. induction db as [|y db IH]; simpl; [discriminate|].
  destruct (_id y =? _id this)%nat eqn:Q; simpl.
  - intros _. now rewrite Nat.eqb_refl.
  - rewrite Q. exact IH.
Qed.

Lemma findById_id db i a : findById db i = Some a -> _id a = i /\ In a db.
Proof.
  unfold findById. intros H. apply find_some in H. destruct H as [Hin H].
  apply Nat.eqb_eq in H. now split.
Qed.

(** What a successful [Appointment.create] returns. *)
Lemma create_ok db newId f db' this :
  create db newId f = ok (db', this) ->
  construct newId f = ok this /\ preSave db this = ok tt
  /\ findById db newId = None /\ db' = db ++ [this].
Proof.
  unfold create. destruct (construct newId f) as [e|this0]; simpl; [discriminate|].
  destruct (preSave db this0) as [e|[]] eqn:P; simpl; [discriminate|].
  destruct (findById db newId); [discriminate|].
  intros H. injection H as <- <-. repeat split; try reflexivity. exact P.
Qed.

Lemma construct_ok newId f this :
  construct newId f = ok this ->
  _id this = newId /\ status this = scheduled
  /\ patient this = f_patient f /\ admin this = f_admin f
  /\ f_startTime f = Some (startTime this) /\ f_endTime f = Some (endTime this)
  /\ startTime this < endTime this.
Proof.
  unfold construct.
  destruct (f_appointmentType f); [|discriminate].
  destruct (f_startTime f) as [st|]; [|discriminate].
  destruct (f_endTime f) as [en|]; [|discriminate].
  destruct (f_reason f) as [r|]; [|discriminate].
  unfold validate; simpl.
  destruct (en >? st) eqn:V; simpl; [|discriminate].
  destruct (requiredString r); simpl; [|discriminate].
  intros H. injection H as <-. simpl. apply Z.gtb_gt in V.
  repeat split; try reflexivity. lia.
Qed.

(** What a successful cancellation returns. *)
Lemma cancelAppointment_ok db reqUser i reason now db' a' :
  cancelAppointment db reqUser i reason now = ok (db', a') ->
  exists a, findById db i = Some a /\ canModify reqUser a = true
    /\ a' = Appointment.mk (_id a) (patient a) (admin a) (appointmentType a) cancelled
                           (startTime a) (endTime a) (Appointment.reason a) (isVirtual a)
                           (Some now) (Some (reasonOrDefault reason))
    /\ db' = replace db a'.
Proof.
  unfold cancelAppointment. destruct (findById db i) as [a|] eqn:F; [|discriminate].
  destruct (canModify reqUser a) eqn:P; simpl; [|discriminate].
  unfold save. simpl.
  match goal with |- context [validate ?x] => destruct (validate x) as [e|[]] end;
    simpl; [discriminate|].
  intros H. injection H as <- <-. exists a. repeat split; try reflexivity. exact P.
Qed.


(** A booking that overlaps a live appointment of the same admin or patient
    is refused by the save guard with the conflict error. *)
Lemma createAppointment_conflict users db newId reqUser body now adminUser this b :
  findActiveAdmin users = Some adminUser ->
  dateLt (b_startTime body) (Some now) = false ->
  construct newId (mkFields (id reqUser) (user_id adminUser) (b_appointmentType body)
                            (b_startTime body) (b_endTime body) (b_reason body)
                            (orElse (b_isVirtual body) false)) = ok this ->
  In b db -> conflictQuery this b = true ->
  createAppointment users db newId reqUser body now
  = fail (HookError "Time slot is already booked" 400).
Proof.
  intros Hadmin Hpast Hc Hb Hq. unfold createAppointment. rewrite Hadmin, Hpast.
  destruct (dateLe _ _) eqn:Hle.
  - exfalso. apply construct_ok in Hc. simpl in Hc.
    destruct Hc as (_ & _ & _ & _ & Hs & He & Hlt).
    rewrite Hs, He in Hle. simpl in Hle. apply Z.leb_le in Hle. lia.
  - unfold create. rewrite Hc. simpl.
    rewrite (preSave_conflict db this b); try assumption; [reflexivity|].
    apply construct_ok in Hc. destruct Hc as (_ & -> & _). discriminate.
Qed.



(** The collection with the overnight appointment is one a single booking
    produces. *)
Example overnight_is_bookable :
  createAppointment sampleUsers [] 5 Spec.alice
                    (mkBody (Some fitting) (Some (at_ (-1) 0)) (Some (at_ 9 30))
                            (Some "fitting"%string) None)
                    (at_ (-2) 0)
  = ok ([overnight], overnight).
Proof. reflexivity. Qed.

(** C3.  The PATCH handler writes through [findByIdAndUpdate], which runs
    no save middleware: moving the 12:00 appointment of the admin to 10:30,
    over the admin's 10:00-11:00 appointment, is accepted, although the
    save guard refuses that very document. *)
Theorem updateAppointment_bypasses_save_guard :
  updateAppointment [morning; noon] bob 2 moveTo1030
  = ok ([morning; noonMoved], Some noonMoved)
  /\ preSave [morning; noon] noonMoved = fail (HookError "Time slot is already booked" 400)
  /\ admin morning = admin noonMoved
  /\ status morning <> cancelled /\ status noonMoved <> cancelled
  /\ Overlap morning noonMoved.
Proof.
  split; [reflexivity|]. split; [reflexivity|]. split; [reflexivity|].
  split; [discriminate|]. split; [discriminate|].
  split; vm_compute; reflexivity.
Qed.

(** C1.  A collection reached by two bookings and one update holds two live
    appointments of one admin with overlapping intervals. *)
Theorem reachable_overlap_by_update :
  reachable sampleUsers [morning; noonMoved] /\ ~ NoOverlap [morning; noonMoved].
Proof.
  split.
  - apply (reach_update sampleUsers [morning; noon] bob 2%nat moveTo1030 _ (Some noonMoved)).
    + apply (reach_create sampleUsers [morning] 2%nat bob (booking 12 0 13 0) (at_ 8 0) _ noon).
      * apply (reach_create sampleUsers [] 1%nat alice (booking 10 0 11 0) (at_ 8 0) _ morning).
        -- apply reach_empty.
        -- reflexivity.
      * reflexivity.
    + reflexivity.
  - intros H. apply (H morning noonMoved).
    + left. reflexivity.
    + right. left. reflexivity.
    + discriminate.
    + discriminate.
    + discriminate.
    + left. reflexivity.
    + split; vm_compute; reflexivity.
Qed.




(** The scenario of C6 run on the sample day: before the cancellation the
    10:00 slot is missing and a rival booking of 10:00-11:00 is refused;
    after it the slot is offered and the booking goes through. *)
Example cancel_then_rebook :
  getAvailableSlots 0 sampleUsers [morning; noon] earlyClock (Some june10)
  = ok (map (templateSlot 0 june10) [9; 11; 13; 14; 15; 16])
  /\ createAppointment sampleUsers [morning; noon] 3 carol (booking 10 0 11 0) (at_ 8 0)
     = fail (HookError "Time slot is already booked" 400)
  /\ cancelAppointment [morning; noon] alice 1 None (at_ 8 0)
     = ok ([morningCancelled; noon], morningCancelled)
  /\ getAvailableSlots 0 sampleUsers [morningCancelled; noon] earlyClock (Some june10)
     = ok (map (templateSlot 0 june10) [9; 10; 11; 13; 14; 15; 16])
  /\ isOk (createAppointment sampleUsers [morningCancelled; noon] 3 carol
                             (booking 10 0 11 0) (at_ 8 0)) = true.
Proof. repeat split; vm_compute; reflexivity. Qed.

(** ** Consultations *)

Import Consultation consultationController ConsultationSpec.

(** C4.  [createConsultation] never produces a consultation: for an
    appointment that exists it stops at [appointment.user._id], a path the
    appointment schema does not have; otherwise it answers 404.  Two calls
    for an existing appointment therefore both fail. *)
Theorem createConsultation_never_succeeds appointments db newId now reqUser appointmentId :
  createConsultation appointments db newId now reqUser appointmentId
  = match Appointment.findById appointments appointmentId with
    | Some _ => fail (TypeError "Cannot read properties of undefined (reading '_id')")
    | None => fail (AppError "Appointment not found" 404)
    end.
Proof.
  unfold createConsultation.
  destruct (Appointment.findById appointments appointmentId); reflexivity.
Qed.

(** Past that point the creation would stop at validation: [roomId] is
    required, and the hook that generates it runs only after validation. *)
Lemma create_requires_roomId db newId now a p q st en :
  create db newId now a p q st en = fail (ValidationError "roomId" "Room ID is required").
Proof. reflexivity. Qed.

(** C5.  A caller who is not the practitioner and not an admin cannot end
    the consultation, whether or not they are its patient; if they are not
    the patient either, start, join, notes and feedback are refused as well.
    Every refusal is a 403 and leaves the collection as it was. *)
Theorem outsiders_are_refused db i c reqUser :
  findById db i = Some c ->
  role reqUser <> role_admin ->
  practitioner c <> id reqUser ->
  (forall now now' notes patientNotes practitionerNotes,
     endConsultation db now now' reqUser i notes patientNotes practitionerNotes
     = (db, fail (AppError "Only the practitioner can end the consultation" 403)))
  /\ (patient c <> id reqUser ->
      (forall now now',
         startConsultation db now now' reqUser i
         = (db, fail (AppError "Not authorized to start this consultation" 403)))
      /\ (forall now,
            joinConsultation db now reqUser i
            = (db, fail (AppError "Not authorized to join this consultation" 403)))
      /\ (forall now notes type,
            addNotes db now reqUser i notes type
            = (db, fail (AppError "Not authorized to add notes to this consultation" 403)))
      /\ (forall now rating text technical,
            submitFeedback db now reqUser i rating text technical
            = (db, fail (AppError "Not authorized to submit feedback for this consultation" 403)))).
Proof.
  intros Hfind Hrole Hpr.
  assert (Er : Role_eqb (role reqUser) role_admin = false)
    by (destruct (role reqUser); simpl; congruence).
  assert (Ep : (practitioner c =? id reqUser)%nat = false) by now apply Nat.eqb_neq.
  split.
  - intros. unfold endConsultation. rewrite Hfind, Ep, Er. reflexivity.
  - intros Hpa.
    assert (Ea : (patient c =? id reqUser)%nat = false) by now apply Nat.eqb_neq.
    assert (En : notParticipantOrAdmin reqUser c = true)
      by (unfold notParticipantOrAdmin; now rewrite Ea, Ep, Er).
    repeat split; intros.
    + unfold startConsultation. now rewrite Hfind, En.
    + unfold joinConsultation. now rewrite Hfind, En.
    + unfold addNotes. now rewrite Hfind, En.
    + unfold submitFeedback. now rewrite Hfind, Ea, Ep.
Qed.

Lemma outsiders_are_refused_witness :
  (forall now now' notes patientNotes practitionerNotes,
     endConsultation [room active []] now now' carol 50 notes patientNotes practitionerNotes
     = ([room active []], fail (AppError "Only the practitioner can end the consultation" 403)))
  /\ (forall now now',
        startConsultation [room active []] now now' carol 50
        = ([room active []], fail (AppError "Not authorized to start this consultation" 403)))
  /\ (forall now,
        joinConsultation [room active []] now carol 50
        = ([room active []], fail (AppError "Not authorized to join this consultation" 403)))
  /\ (forall now notes type,
        addNotes [room active []] now carol 50 notes type
        = ([room active []],
           fail (AppError "Not authorized to add notes to this consultation" 403)))
  /\ (forall now rating text technical,
        submitFeedback [room active []] now carol 50 rating text technical
        = ([room active []],
           fail (AppError "Not authorized to submit feedback for this consultation" 403))).
Proof.
  destruct (outsiders_are_refused [room active []] 50%nat (room active []) carol)
    as [Hend Hrest].
  - reflexivity.
  - discriminate.
  - discriminate.
  - split; [exact Hend|]. apply Hrest. discriminate.
Defined.

(** The patient alone cannot end the session. *)
Example patient_cannot_end :
  forall now now',
    endConsultation [room active []] now now' alice 50 None None None
    = ([room active []], fail (AppError "Only the practitioner can end the consultation" 403)).
Proof. reflexivity. Qed.

(** ** Saving a consultation *)

Lemma validate_roomId c : validate c = ok tt -> truthy (roomId c) = true.
Proof.
  unfold validate. destruct (truthy (roomId c)); simpl; [reflexivity|discriminate].
Qed.

(** Validation reads [roomId], [participants] and [feedback] only. *)
Lemma validate_ext c c' :
  roomId c' = roomId c -> participants c' = participants c -> feedback c' = feedback c ->
  validate c' = validate c.
Proof. unfold validate. now intros -> -> ->. Qed.

Lemma beforeSave_valid now c :
  validate c = ok tt -> beforeSave now c = ok (preSaveDuration c).
Proof.
  intros V. unfold beforeSave. rewrite V. simpl.
  unfold preSaveRoomId. now rewrite (validate_roomId c V).
Qed.

Lemma save_valid db now c :
  validate c = ok tt ->
  save db now c = ok (replace db (preSaveDuration c), preSaveDuration c).
Proof. intros V. unfold save. now rewrite (beforeSave_valid now c V). Qed.

Lemma save_invalid db now c e :
  validate c = fail e -> save db now c = fail e.
Proof. intros V. unfold save, beforeSave. now rewrite V. Qed.

Lemma preSaveDuration_same c : SameButDuration c (preSaveDuration c).
Proof.
  unfold SameButDuration, preSaveDuration. destruct c as [? ? ? ? ? ? ? ? s e d ? ? ? ? ?].
  simpl. destruct s, e; try reflexivity.
  destruct (noDuration d); reflexivity.
Qed.

Lemma preSaveDuration_frame c :
  _id (preSaveDuration c) = _id c
  /\ status (preSaveDuration c) = status c
  /\ participants (preSaveDuration c) = participants c
  /\ actualStartTime (preSaveDuration c) = actualStartTime c
  /\ actualEndTime (preSaveDuration c) = actualEndTime c
  /\ notes (preSaveDuration c) = notes c.
Proof.
  unfold preSaveDuration.
  destruct (actualStartTime c) eqn:S, (actualEndTime c) eqn:E;
    try (repeat split; assumption).
  destruct (noDuration (duration c)); simpl; repeat split; assumption.
Qed.

(** Every save leaves a settled record. *)
Lemma preSaveDuration_settled c : Settled (preSaveDuration c).
Proof.
  unfold Settled, preSaveDuration. destruct c as [? ? ? ? ? ? ? ? s e d ? ? ? ? ?].
  simpl. destruct s as [s|], e as [e|]; simpl; try reflexivity.
  destruct (noDuration d) eqn:N; simpl.
  - destruct ((e - s + 30000) / 60000 =? 0); reflexivity.
  - now rewrite N.
Qed.

Lemma replace_absent db c :
  (forall y, In y db -> _id y <> _id c) -> replace db c = db.
Proof.
  unfold replace. induction db as [|x db IH]; intros H; simpl; [reflexivity|].
  assert (Hx : (_id x =? _id c)%nat = false)
    by (apply Nat.eqb_neq; apply H; now left).
  rewrite Hx. f_equal. apply IH. intros y Hy. apply H. now right.
Qed.

Lemma replace_same db c :
  NoDup (map _id db) -> findById db (_id c) = Some c -> replace db c = db.
Proof.
  induction db as [|x db IH]; intros Hnd Hf; simpl; [reflexivity|].
  simpl in Hnd. apply NoDup_cons_iff in Hnd. destruct Hnd as [Hnot Hnd].
  unfold findById in Hf. simpl in Hf.
  destruct (_id x =? _id c)%nat eqn:Q.
  - injection Hf as ->. f_equal. apply replace_absent.
    intros y Hy E. apply Hnot. rewrite <- E. now apply in_map.
  - f_equal. now apply IH.
Qed.

(** ** Participants *)

Lemma updateParticipant_length f u ps :
  List.length (updateParticipant f u ps) = List.length ps.
Proof.
  induction ps as [|p ps IH]; simpl; [reflexivity|].
  destruct (user p =? u)%nat; simpl; congruence.
Qed.

Lemma updateParticipant_find f u ps p :
  (forall q, user (f q) = user q) ->
  findParticipant ps u = Some p ->
  findParticipant (updateParticipant f u ps) u = Some (f p).
Proof.
  intros Hf. unfold findParticipant.
  induction ps as [|q ps IH]; simpl; [discriminate|].
  destruct (user q =? u)%nat eqn:Q; simpl.
  - intros H. injection H as <-. now rewrite Hf, Q.
  - now rewrite Q.
Qed.

Lemma updateParticipant_valid f u ps :
  (forall q, p_role (f q) = p_role q) ->
  forallb validParticipant (updateParticipant f u ps) = forallb validParticipant ps.
Proof.
  intros Hf. induction ps as [|q ps IH]; simpl; [reflexivity|].
  destruct (user q =? u)%nat; simpl.
  - unfold validParticipant at 1 3. now rewrite Hf.
  - now rewrite IH.
Qed.

Lemma validate_new_participant c u now :
  validate c = ok tt ->
  validate (set_participants
              (participants c ++ [mkParticipant u None (Some now) None disconnected]) c)
  = fail (ValidationError "participants.role" "Path `role` is required.").
Proof.
  intros V. unfold validate; simpl.
  rewrite (validate_roomId c V). simpl.
  rewrite forallb_app. simpl. now rewrite andb_false_r.
Qed.

(** C8.  The first join of a user is not recorded: the entry the code
    pushes has no [role], which the participants schema requires, so the
    save is rejected and the collection stays as it was.  Here the patient
    joins a consultation nobody has joined yet. *)
Theorem joinConsultation_first_join_rejected now :
  joinConsultation [room scheduled []] now ConsultationSpec.alice 50
  = ([room scheduled []],
     fail (ValidationError "participants.role" "Path `role` is required.")).
Proof. reflexivity. Qed.

(** The same for every valid consultation and every admitted caller without
    an entry. *)
Lemma joinConsultation_without_entry db now reqUser i c :
  findById db i = Some c ->
  notParticipantOrAdmin reqUser c = false ->
  validate c = ok tt ->
  findParticipant (participants c) (id reqUser) = None ->
  joinConsultation db now reqUser i
  = (db, fail (ValidationError "participants.role" "Path `role` is required.")).
Proof.
  intros Hf Ha V Hp. unfold joinConsultation. rewrite Hf, Ha.
  unfold addParticipant. rewrite Hp.
  rewrite (save_invalid _ _ _ _ (validate_new_participant c (id reqUser) now V)).
  reflexivity.
Qed.

(** The parts of C8 that hold: a join over an existing entry restamps
    [joinedAt] and clears [leftAt] on that entry, adding none; a leave stamps
    [leftAt]; neither touches [status]. *)
Lemma joinConsultation_existing_entry db now reqUser i c p :
  findById db i = Some c ->
  notParticipantOrAdmin reqUser c = false ->
  validate c = ok tt ->
  findParticipant (participants c) (id reqUser) = Some p ->
  exists c',
    joinConsultation db now reqUser i = (replace db c', ok c')
    /\ status c' = status c
    /\ List.length (participants c') = List.length (participants c)
    /\ findParticipant (participants c') (id reqUser)
       = Some (mkParticipant (user p) (p_role p) (Some now) None (connectionStatus p)).
Proof.
  intros Hf Ha V Hp. unfold joinConsultation. rewrite Hf, Ha.
  unfold addParticipant. rewrite Hp.
  set (f := fun q => mkParticipant (user q) (p_role q) (Some now) None (connectionStatus q)).
  set (c1 := set_participants (updateParticipant f (id reqUser) (participants c)) c).
  assert (V1 : validate c1 = ok tt).
  { unfold validate in *. simpl.
    rewrite (updateParticipant_valid f) by reflexivity. exact V. }
  rewrite (save_valid db now c1 V1). simpl.
  exists (preSaveDuration c1).
  destruct (preSaveDuration_frame c1) as (_ & Hs & Hps & _).
  rewrite Hs, Hps. simpl. repeat split.
  - apply updateParticipant_length.
  - now apply (updateParticipant_find f).
Qed.

(** A leave over an existing entry stamps [leftAt] on that entry, keeps
    its [joinedAt], adds no entry and leaves [status] alone; no
    authorization is asked. *)
Lemma leaveConsultation_existing_entry db now reqUser i c p :
  findById db i = Some c ->
  validate c = ok tt ->
  findParticipant (participants c) (id reqUser) = Some p ->
  exists c',
    leaveConsultation db now reqUser i = (replace db c', ok c')
    /\ status c' = status c
    /\ List.length (participants c') = List.length (participants c)
    /\ findParticipant (participants c') (id reqUser)
       = Some (mkParticipant (user p) (p_role p) (joinedAt p) (Some now) (connectionStatus p)).
Proof.
  intros Hf V Hp. unfold leaveConsultation. rewrite Hf.
  unfold removeParticipant. rewrite Hp.
  set (f := fun q => mkParticipant (user q) (p_role q) (joinedAt q) (Some now)
                                   (connectionStatus q)).
  set (c1 := set_participants (updateParticipant f (id reqUser) (participants c)) c).
  assert (V1 : validate c1 = ok tt).
  { unfold validate in *. simpl.
    rewrite (updateParticipant_valid f) by reflexivity. exact V. }
  rewrite (save_valid db now c1 V1). simpl.
  exists (preSaveDuration c1).
  destruct (preSaveDuration_frame c1) as (_ & Hs & Hps & _).
  rewrite Hs, Hps. simpl. repeat split.
  - apply updateParticipant_length.
  - now apply (updateParticipant_find f).
Qed.

(** C9.  [leaveConsultation] asks nothing about the caller.  For a stored
    (valid) consultation in which the caller has no entry it answers with
    success; the record it writes back is the one it read, up to the
    [duration] the save hook derives when it is still missing, and for a
    settled record in a collection with unique ids nothing changes at all. *)
Theorem leaveConsultation_by_stranger db now reqUser i c :
  findById db i = Some c ->
  validate c = ok tt ->
  findParticipant (participants c) (id reqUser) = None ->
  leaveConsultation db now reqUser i
  = (replace db (preSaveDuration c), ok (preSaveDuration c))
  /\ SameButDuration c (preSaveDuration c)
  /\ (Settled c -> NoDup (map _id db) -> leaveConsultation db now reqUser i = (db, ok c)).
Proof.
  intros Hf V Hp.
  assert (E : leaveConsultation db now reqUser i
              = (replace db (preSaveDuration c), ok (preSaveDuration c))).
  { unfold leaveConsultation. rewrite Hf. unfold removeParticipant. rewrite Hp.
    now rewrite (save_valid db now c V). }
  split; [exact E|]. split; [apply preSaveDuration_same|].
  intros Hs Hnd. rewrite E, Hs. rewrite replace_same; [reflexivity|exact Hnd|].
  unfold findById in Hf. destruct (find_some _ _ Hf) as [_ Hi].
  apply Nat.eqb_eq in Hi. rewrite Hi. exact Hf.
Qed.

Lemma leaveConsultation_by_stranger_witness :
  leaveConsultation [room active []] 1749550000000 carol 50
  = ([room active []], ok (room active [])).
Proof.
  destruct (leaveConsultation_by_stranger [room active []] 1749550000000 carol 50%nat
                                          (room active []))
    as (_ & _ & Hsame).
  - reflexivity.
  - reflexivity.
  - reflexivity.
  - apply Hsame.
    + reflexivity.
    + repeat constructor. intros [].
Defined.

(** ** Start and end *)

(** C10, as the code has it.  Neither model method looks at [status].  On a
    stored (valid) consultation in any state, [startConsultation] writes the
    record with [status] active and [actualStartTime] the current instant;
    [endConsultation], when the record has an [actualStartTime], writes it
    with [status] completed, [actualEndTime] the current instant and
    [duration] the rounded number of minutes between the two. *)
Theorem transitions_ignore_status db now notes c :
  validate c = ok tt ->
  (exists c',
     Consultation.startConsultation db now c = ok (replace db c', c')
     /\ status c' = active /\ actualStartTime c' = Some now)
  /\ (forall t0, actualStartTime c = Some t0 ->
      exists c',
        Consultation.endConsultation db now notes c = ok (replace db c', c')
        /\ status c' = completed /\ actualEndTime c' = Some now
        /\ duration c' = Some ((now - t0 + 30000) / 60000)).
Proof.
  intros V. split.
  - unfold Consultation.startConsultation.
    set (c1 := set_actualStartTime (Some now) (set_status active c)).
    assert (V1 : validate c1 = ok tt) by (rewrite <- V; now apply validate_ext).
    rewrite (save_valid db now c1 V1).
    exists (preSaveDuration c1). split; [reflexivity|].
    destruct (preSaveDuration_frame c1) as (_ & Hs & _ & Ha & _).
    now rewrite Hs, Ha.
  - intros t0 Ht0. unfold Consultation.endConsultation.
    set (c1 := set_actualEndTime (Some now) (set_status completed c)).
    set (c2 := if truthy notes then set_notes notes c1 else c1).
    assert (H2 : roomId c2 = roomId c /\ participants c2 = participants c
                 /\ feedback c2 = feedback c /\ status c2 = completed
                 /\ actualEndTime c2 = Some now /\ actualStartTime c2 = Some t0).
    { unfold c2. destruct (truthy notes); simpl; repeat split; assumption. }
    destruct H2 as (Hr & Hp & Hfb & Hs & He & Ha).
    rewrite He, Ha. simpl.
    set (d := (now - t0 + 30000) / 60000).
    set (c3 := set_duration (Some d) c2).
    assert (V3 : validate c3 = ok tt) by (rewrite <- V; now apply validate_ext).
    rewrite (save_valid db now c3 V3).
    exists (preSaveDuration c3). split; [reflexivity|].
    destruct (preSaveDuration_frame c3) as (_ & Hs3 & _ & _ & He3 & _).
    rewrite Hs3, He3. simpl. repeat split; try assumption.
    unfold preSaveDuration. simpl. rewrite Ha, He. simpl. fold d.
    destruct (d =? 0); reflexivity.
Qed.

Lemma transitions_ignore_status_witness :
  (exists c',
     Consultation.startConsultation [finishedRoom] 1749553200000 finishedRoom
     = ok (replace [finishedRoom] c', c')
     /\ status c' = active /\ actualStartTime c' = Some 1749553200000)
  /\ (exists c',
        Consultation.endConsultation [finishedRoom] 1749553200000 None finishedRoom
        = ok (replace [finishedRoom] c', c')
        /\ status c' = completed /\ actualEndTime c' = Some 1749553200000
        /\ duration c' = Some ((1749553200000 - 1749549600000 + 30000) / 60000)).
Proof.
  destruct (transitions_ignore_status [finishedRoom] 1749553200000 None finishedRoom)
    as [Hstart Hend].
  - reflexivity.
  - split; [exact Hstart|]. apply Hend. reflexivity.
Defined.

(** A cancelled consultation that once ran is restarted and ended like any
    other. *)
Example restart_and_end_after_cancel :
  let c := set_actualStartTime (Some 1749549600000) (room cancelled []) in
  (exists c', Consultation.startConsultation [c] 1749550000000 c = ok ([c'], c')
              /\ status c' = active)
  /\ (exists c', Consultation.endConsultation [c] 1749550200000 None c = ok ([c'], c')
                 /\ status c' = completed /\ duration c' = Some 10).
Proof.
  split; eexists; (split; [reflexivity|]); repeat split; reflexivity.
Qed.

(** C10 as worded fails: ending a consultation that was never started
    computes a NaN duration, and the save is rejected. *)
Lemma endConsultation_never_started_counterexample : ~ EndsFromAnyState.
Proof.
  intros H.
  destruct (H [room scheduled []] 1749550000000 None (room scheduled []) eq_refl)
    as (db' & c' & E & _).
  discriminate E.
Qed.

(** * Further properties of the appointment handlers *)

Import Appointment appointmentController Spec.


(** What a successful booking returns. *)
Lemma createAppointment_ok users db newId reqUser body now db' a :
  createAppointment users db newId reqUser body now = ok (db', a) ->
  exists adminUser,
    findActiveAdmin users = Some adminUser
    /\ dateLt (b_startTime body) (Some now) = false
    /\ create db newId
              (mkFields (id reqUser) (user_id adminUser) (b_appointmentType body)
                        (b_startTime body) (b_endTime body) (b_reason body)
                        (orElse (b_isVirtual body) false))
       = ok (db', a).
Proof.
  unfold createAppointment.
  destruct (findActiveAdmin users) as [adminUser|]; [|discriminate].
  destruct (dateLt _ _) eqn:P; [discriminate|].
  destruct (dateLe _ _); [discriminate|].
  intros H. exists adminUser. repeat split; assumption.
Qed.

Lemma construct_valid newId p ad ty st en r v :
  st < en -> r <> EmptyString ->
  construct newId (mkFields p ad (Some ty) (Some st) (Some en) (Some r) v)
  = ok (Appointment.mk newId p ad ty scheduled st en r v None None).
Proof.
  intros Hlt Hr. unfold construct, validate; simpl.
  replace (en >? st) with true by (symmetry; apply Z.gtb_gt; lia).
  assert (Hreq : requiredString r = true).
  { unfold requiredString. apply negb_true_iff. apply String.eqb_neq. exact Hr. }
  rewrite Hreq. reflexivity.
Qed.

Lemma booking_conflict_helper
        users db newId reqUser ty st en r v now adminUser b :
  findActiveAdmin users = Some adminUser ->
  now <= st -> st < en -> r <> EmptyString ->
  In b db -> _id b <> newId -> status b <> cancelled ->
  admin b = user_id adminUser \/ patient b = id reqUser ->
  startTime b < en -> st < endTime b ->
  createAppointment users db newId reqUser
                    (mkBody (Some ty) (Some st) (Some en) (Some r) v) now
  = fail (HookError "Time slot is already booked" 400).
Proof.
  intros Hadmin Hnow Hlt Hr Hb Hid Hlive Hsame O1 O2.
  apply (createAppointment_conflict users db newId reqUser _ now adminUser
           (Appointment.mk newId (id reqUser) (user_id adminUser) ty scheduled st en r
                           (orElse v false) None None) b).
  - exact Hadmin.
  - simpl. apply Z.ltb_ge. lia.
  - simpl. now apply construct_valid.
  - exact Hb.
  - apply conflictQuery_spec. simpl. repeat split; try assumption; try lia; tauto.
Qed.

(** A well-formed booking whose window overlaps a live appointment of the
    resolved admin, or of the caller, is refused with the conflict error. *)
Theorem booking_over_live_appointment_refused
        users db newId reqUser ty st en r v now adminUser b :
  findActiveAdmin users = Some adminUser ->
  now <= st -> st < en -> r <> EmptyString ->
  In b db -> _id b <> newId -> status b <> cancelled ->
  admin b = user_id adminUser \/ patient b = id reqUser ->
  startTime b < en -> st < endTime b ->
  createAppointment users db newId reqUser
                    (mkBody (Some ty) (Some st) (Some en) (Some r) v) now
  = fail (HookError "Time slot is already booked" 400).
Proof. exact (booking_conflict_helper users db newId reqUser ty st en r v now adminUser b). Qed.

Lemma booking_over_live_appointment_refused_witness :
  createAppointment sampleUsers [morning; noon] 3 carol
                    (mkBody (Some consultation) (Some (at_ 10 30)) (Some (at_ 11 30))
                            (Some "check"%string) None) (at_ 8 0)
  = fail (HookError "Time slot is already booked" 400).
Proof.
  apply (booking_over_live_appointment_refused
           sampleUsers [morning; noon] 3%nat carol consultation (at_ 10 30) (at_ 11 30)
           "check" None (at_ 8 0) theAdmin morning).
  - reflexivity.
  - vm_compute; discriminate.
  - vm_compute; reflexivity.
  - discriminate.
  - left; reflexivity.
  - discriminate.
  - discriminate.
  - left; reflexivity.
  - vm_compute; reflexivity.
  - vm_compute; reflexivity.
Defined.

(** While the record of an accepted booking is still stored as it was
    accepted and the same active admin is resolved, no well-formed booking
    for an overlapping window is accepted, whoever asks and whatever else
    the collection holds: it is refused as already booked whenever the new
    document gets an id other than that of the stored record (and fails
    otherwise too).  Once the record is cancelled or changed, or another
    admin is resolved, the statement no longer applies. *)
Theorem second_booking_refused users db newId reqUser body now db' a
        users' db'' newId' reqUser' ty st en r v now' :
  createAppointment users db newId reqUser body now = ok (db', a) ->
  findActiveAdmin users' = findActiveAdmin users ->
  In a db'' ->
  now' <= st -> st < en -> r <> EmptyString ->
  startTime a < en -> st < endTime a ->
  isOk (createAppointment users' db'' newId' reqUser'
                          (mkBody (Some ty) (Some st) (Some en) (Some r) v) now') = false
  /\ (newId' <> newId ->
      createAppointment users' db'' newId' reqUser'
                        (mkBody (Some ty) (Some st) (Some en) (Some r) v) now'
      = fail (HookError "Time slot is already booked" 400)).
Proof.
  intros H Hsame Hin Hnow Hlt Hr O1 O2.
  destruct (createAppointment_ok _ _ _ _ _ _ _ _ H) as (adminUser & Hadmin & _ & Hc).
  rewrite <- Hsame in Hadmin.
  apply create_ok in Hc. destruct Hc as (Hc & _ & _ & _).
  apply construct_ok in Hc. simpl in Hc. destruct Hc as (Hid & Hst & _ & Had & _).
  assert (Hconf : newId' <> newId ->
            createAppointment users' db'' newId' reqUser'
                              (mkBody (Some ty) (Some st) (Some en) (Some r) v) now'
            = fail (HookError "Time slot is already booked" 400)).
  { intros Hne.
    apply (booking_conflict_helper users' db'' newId' reqUser' ty st en r v now'
             adminUser a); try assumption.
    - congruence.
    - rewrite Hst. discriminate.
    - now left. }
  split; [|exact Hconf].
  destruct (Nat.eq_dec newId' newId) as [E|Hne].
  - subst newId'. unfold createAppointment. rewrite Hadmin. simpl.
    replace (st <? now') with false by (symmetry; apply Z.ltb_ge; lia).
    replace (en <=? st) with false by (symmetry; apply Z.leb_gt; lia).
    unfold create. rewrite construct_valid by assumption. simpl.
    destruct (preSave _ _) as [e|[]]; simpl; [reflexivity|].
    assert (F : findById db'' newId <> None).
    { unfold findById. intros F. rewrite find_none_iff in F.
      specialize (F a Hin). rewrite Hid, Nat.eqb_refl in F. discriminate. }
    destruct (findById db'' newId); [reflexivity|contradiction].
  - now rewrite (Hconf Hne).
Qed.

Lemma second_booking_refused_witness :
  isOk (createAppointment sampleUsers [morning; noon] 3 carol
          (mkBody (Some consultation) (Some (at_ 10 30)) (Some (at_ 11 30))
                  (Some "check"%string) None) (at_ 8 30)) = false
  /\ createAppointment sampleUsers [morning; noon] 3 carol
       (mkBody (Some consultation) (Some (at_ 10 30)) (Some (at_ 11 30))
               (Some "check"%string) None) (at_ 8 30)
     = fail (HookError "Time slot is already booked" 400).
Proof.
  destruct (second_booking_refused sampleUsers [] 1%nat Spec.alice (booking 10 0 11 0)
              (at_ 8 0) [morning] morning sampleUsers [morning; noon] 3%nat carol
              consultation (at_ 10 30) (at_ 11 30) "check" None (at_ 8 30)) as [H1 H2].
  - reflexivity.
  - reflexivity.
  - left. reflexivity.
  - vm_compute; discriminate.
  - vm_compute; reflexivity.
  - discriminate.
  - vm_compute; reflexivity.
  - vm_compute; reflexivity.
  - split; [exact H1|]. apply H2. discriminate.
Defined.

(** What an accepted booking guarantees: the collection grows by exactly
    the new record, which is scheduled, belongs to the caller and to the
    first active admin, carries the requested window, starts no earlier
    than the current instant and ends after it starts; its id was free. *)
Theorem createAppointment_success users db newId reqUser body now db' a :
  createAppointment users db newId reqUser body now = ok (db', a) ->
  db' = db ++ [a]
  /\ _id a = newId /\ findById db newId = None
  /\ status a = scheduled /\ patient a = id reqUser
  /\ (exists adminUser, findActiveAdmin users = Some adminUser /\ admin a = user_id adminUser)
  /\ b_startTime body = Some (startTime a) /\ b_endTime body = Some (endTime a)
  /\ now <= startTime a < endTime a.
Proof.
  intros H.
  destruct (createAppointment_ok _ _ _ _ _ _ _ _ H) as (adminUser & Hadmin & Hpast & Hc).
  apply create_ok in Hc. destruct Hc as (Hc & _ & Hfresh & ->).
  apply construct_ok in Hc. simpl in Hc.
  destruct Hc as (Hid & Hst & Hp & Had & Hs & He & Hlt).
  repeat split; try assumption.
  - exists adminUser. now split.
  - rewrite Hs in Hpast. simpl in Hpast. apply Z.ltb_ge in Hpast. exact Hpast.
Qed.

Lemma createAppointment_success_witness :
  [morning; noon] = [morning] ++ [noon]
  /\ _id noon = 2%nat /\ findById [morning] 2 = None
  /\ status noon = scheduled /\ patient noon = id bob
  /\ (exists adminUser,
         findActiveAdmin sampleUsers = Some adminUser /\ admin noon = user_id adminUser)
  /\ b_startTime (booking 12 0 13 0) = Some (startTime noon)
  /\ b_endTime (booking 12 0 13 0) = Some (endTime noon)
  /\ at_ 8 0 <= startTime noon < endTime noon.
Proof.
  apply (createAppointment_success sampleUsers [morning] 2%nat bob (booking 12 0 13 0)
                                   (at_ 8 0) [morning; noon] noon).
  reflexivity.
Defined.

(** How a booking is turned away before the overlap check, with an active
    admin resolved: a start before the current instant is refused as past
    whatever else the body says; a start that is not past with an end not
    after it is refused; a start that is not a valid date slips through both
    tests of the handler and is stopped by schema validation. *)
Theorem createAppointment_refusals users db newId reqUser body now adminUser :
  findActiveAdmin users = Some adminUser ->
  (forall st, b_startTime body = Some st -> st < now ->
     createAppointment users db newId reqUser body now
     = fail (AppError "Cannot book appointments in the past" 400))
  /\ (forall st en, b_startTime body = Some st -> b_endTime body = Some en ->
        now <= st -> en <= st ->
        createAppointment users db newId reqUser body now
        = fail (AppError "End time must be after start time" 400))
  /\ (b_startTime body = None ->
      exists path message,
        createAppointment users db newId reqUser body now
        = fail (ValidationError path message)).
Proof.
  intros Hadmin. unfold createAppointment. rewrite Hadmin.
  split; [|split].
  - intros st Hs Hlt. rewrite Hs. simpl.
    replace (st <? now) with true by (symmetry; apply Z.ltb_lt; lia). reflexivity.
  - intros st en Hs He Hnow Hle. rewrite Hs, He. simpl.
    replace (st <? now) with false by (symmetry; apply Z.ltb_ge; lia).
    replace (en <=? st) with true by (symmetry; apply Z.leb_le; lia). reflexivity.
  - intros Hs. rewrite Hs. simpl.
    assert (Hle : dateLe (b_endTime body) None = false)
      by (destruct (b_endTime body); reflexivity).
    rewrite Hle. unfold create, construct. simpl.
    destruct (b_appointmentType body); simpl; eexists; eexists; reflexivity.
Qed.

Lemma createAppointment_refusals_witness :
  createAppointment sampleUsers [] 1 Spec.alice (booking 7 0 8 0) (at_ 8 0)
  = fail (AppError "Cannot book appointments in the past" 400)
  /\ createAppointment sampleUsers [] 1 Spec.alice (booking 10 0 10 0) (at_ 8 0)
     = fail (AppError "End time must be after start time" 400)
  /\ (exists path message,
         createAppointment sampleUsers [] 1 Spec.alice
                           (mkBody (Some fitting) None (Some (at_ 11 0))
                                   (Some "fitting"%string) None) (at_ 8 0)
         = fail (ValidationError path message)).
Proof.
  split; [|split].
  - apply (proj1 (createAppointment_refusals sampleUsers [] 1%nat Spec.alice
                    (booking 7 0 8 0) (at_ 8 0) theAdmin eq_refl) (at_ 7 0)).
    + reflexivity.
    + vm_compute; reflexivity.
  - apply (proj1 (proj2 (createAppointment_refusals sampleUsers [] 1%nat Spec.alice
                           (booking 10 0 10 0) (at_ 8 0) theAdmin eq_refl))
             (at_ 10 0) (at_ 10 0)).
    + reflexivity.
    + reflexivity.
    + vm_compute; discriminate.
    + vm_compute; discriminate.
  - apply (proj2 (proj2 (createAppointment_refusals sampleUsers [] 1%nat Spec.alice
                           (mkBody (Some fitting) None (Some (at_ 11 0))
                                   (Some "fitting"%string) None)
                           (at_ 8 0) theAdmin eq_refl))).
    reflexivity.
Defined.

(** ** Updates *)

Lemma updateAppointment_ok db reqUser i body db' r :
  updateAppointment db reqUser i body = ok (db', r) ->
  exists a, findById db i = Some a /\ canModify reqUser a = true
            /\ updateValidators body = ok tt
            /\ r = Some (applyUpdate body a) /\ db' = replace db (applyUpdate body a).
Proof.
  unfold updateAppointment. destruct (findById db i) as [a|] eqn:F; [|discriminate].
  destruct (canModify reqUser a) eqn:P; simpl; [|discriminate].
  unfold findByIdAndUpdate. rewrite F.
  destruct (updateValidators body) as [e|[]]; simpl; [discriminate|].
  intros H. injection H as <- <-. exists a. repeat split; try reflexivity. exact P.
Qed.

Lemma updateValidators_no_endTime body :
  updateValidators body = ok tt -> u_endTime body = None.
Proof.
  unfold updateValidators. destruct (u_endTime body); [discriminate|reflexivity].
Qed.

Lemma map_replace_ids db this : map _id (replace db this) = map _id db.
Proof.
  unfold replace. rewrite map_map. apply map_ext. intros y.
  destruct (_id y =? _id this)%nat eqn:Q; [|reflexivity].
  apply Nat.eqb_eq in Q. now symmetry.
Qed.

(** An accepted update rewrites the one record addressed and nothing else:
    the records keep their ids and their order, and every record with
    another id is as it was. *)
Theorem updateAppointment_touches_one_record db reqUser i body db' r :
  updateAppointment db reqUser i body = ok (db', r) ->
  exists a,
    findById db i = Some a /\ canModify reqUser a = true
    /\ r = Some (applyUpdate body a) /\ _id (applyUpdate body a) = i
    /\ map _id db' = map _id db
    /\ (forall x, _id x <> i -> (In x db' <-> In x db)).
Proof.
  intros H. apply updateAppointment_ok in H.
  destruct H as (a & Hf & Hp & _ & -> & ->).
  destruct (findById_id _ _ _ Hf) as [Hid _].
  exists a. repeat split; try assumption.
  - apply map_replace_ids.
  - intros Hx. apply in_replace in Hx. destruct Hx as [->|[Hx _]]; [|exact Hx].
    contradiction.
  - intros Hx. unfold replace. apply in_map_iff. exists x. split; [|exact Hx].
    assert (Q : (_id x =? _id (applyUpdate body a))%nat = false)
      by (apply Nat.eqb_neq; simpl; congruence).
    now rewrite Q.
Qed.

Lemma updateAppointment_touches_one_record_witness :
  exists a,
    findById [morning; noon] 2 = Some a /\ canModify bob a = true
    /\ Some noonMoved = Some (applyUpdate moveTo1030 a)
    /\ _id (applyUpdate moveTo1030 a) = 2%nat
    /\ map _id [morning; noonMoved] = map _id [morning; noon]
    /\ (forall x, _id x <> 2%nat -> (In x [morning; noonMoved] <-> In x [morning; noon])).
Proof.
  apply (updateAppointment_touches_one_record [morning; noon] bob 2%nat moveTo1030
           [morning; noonMoved] (Some noonMoved)).
  reflexivity.
Defined.

(** An update whose body is made of plain field assignments never changes
    an end time: a body that assigns [endTime] fails the path's validator,
    which compares the value with the [startTime] of [this], and [this] is
    not the appointment when the validator runs for an update.  Bodies that
    carry update operators are not covered: update validators skip
    [$currentDate], [$max] and [$min], through which [endTime] can still be
    written. *)
Theorem plain_update_never_moves_endTime db reqUser i body :
  (forall v, u_endTime body = Some v ->
     isOk (updateAppointment db reqUser i body) = false)
  /\ (forall db' r, updateAppointment db reqUser i body = ok (db', r) ->
        NoDup (map _id db) ->
        map endTime db' = map endTime db).
Proof.
  split.
  - intros v Hv. destruct (updateAppointment db reqUser i body) as [e|[db' r]] eqn:E;
      [reflexivity|].
    apply updateAppointment_ok in E. destruct E as (a & _ & _ & V & _).
    apply updateValidators_no_endTime in V. congruence.
  - intros db' r H Hnd. apply updateAppointment_ok in H.
    destruct H as (a & Hf & _ & V & _ & ->).
    apply updateValidators_no_endTime in V.
    destruct (findById_id _ _ _ Hf) as [Hid Hin].
    unfold replace. rewrite map_map. apply map_ext_in. intros y Hy.
    destruct (_id y =? _id (applyUpdate body a))%nat eqn:Q; [|reflexivity].
    apply Nat.eqb_eq in Q. simpl in Q.
    assert (y = a).
    { clear - Hnd Hy Hin Q. induction db as [|x db IH]; [destruct Hy|].
      simpl in Hnd. apply NoDup_cons_iff in Hnd. destruct Hnd as [Hx Hnd].
      destruct Hy as [->|Hy], Hin as [->|Hin]; try reflexivity.
      - exfalso. apply Hx. rewrite Q. now apply in_map.
      - exfalso. apply Hx. rewrite <- Q. now apply in_map.
      - now apply IH. }
    subst y. simpl. now rewrite V.
Qed.

Lemma plain_update_never_moves_endTime_witness :
  isOk (updateAppointment [morning; noon] bob 2
          (mkUpdate None None None None None (Some (at_ 14 0)) None None None None)) = false
  /\ map endTime [morning; noonMoved] = map endTime [morning; noon].
Proof.
  split.
  - apply (proj1 (plain_update_never_moves_endTime [morning; noon] bob 2%nat _)
             (at_ 14 0)).
    reflexivity.
  - apply (proj2 (plain_update_never_moves_endTime [morning; noon] bob 2%nat
                    moveTo1030) [morning; noonMoved] (Some noonMoved)).
    + reflexivity.
    + repeat constructor; simpl; intuition discriminate.
Defined.

(** ** Who may read, update and cancel *)

Import appointmentReads.

Lemma canModify_spec reqUser a :
  canModify reqUser a = true <-> role reqUser <> role_user \/ patient a = id reqUser.
Proof.
  unfold canModify. rewrite !orb_true_iff, Nat.eqb_eq.
  destruct (role reqUser); simpl; intuition congruence.
Qed.

Lemma updateValidators_failure body e :
  updateValidators body = fail e -> exists p m, e = ValidationError p m.
Proof.
  unfold updateValidators, endTimeValidator.
  destruct (u_endTime body); simpl.
  - intros H. injection H as <-. eauto.
  - destruct (u_reason body) as [r|]; simpl; [|discriminate].
    destruct (requiredString r); simpl; [discriminate|].
    intros H. injection H as <-. eauto.
Qed.

(** Reading, updating and cancelling an appointment are closed to the same
    callers: each of the three handlers answers 403 exactly when the caller
    has the role ['user'] and is not the owning patient (the patient's
    account existing); every other caller reads the record. *)
Theorem appointment_access_is_uniform users db reqUser i a :
  findById db i = Some a ->
  Query.populate users (patient a) <> None ->
  (getAppointment users db reqUser i
   = fail (AppError "You do not have access to this appointment" 403)
   <-> role reqUser = role_user /\ patient a <> id reqUser)
  /\ (forall body,
        updateAppointment db reqUser i body
        = fail (AppError "You do not have permission to update this appointment" 403)
        <-> role reqUser = role_user /\ patient a <> id reqUser)
  /\ (forall reason now,
        cancelAppointment db reqUser i reason now
        = fail (AppError "You do not have permission to cancel this appointment" 403)
        <-> role reqUser = role_user /\ patient a <> id reqUser)
  /\ (~ (role reqUser = role_user /\ patient a <> id reqUser) ->
      getAppointment users db reqUser i = ok a).
Proof.
  intros Hf Hpop.
  assert (Hp : exists u, Query.populate users (patient a) = Some u /\ user_id u = patient a).
  { destruct (Query.populate users (patient a)) as [u|] eqn:E; [|contradiction].
    exists u. split; [reflexivity|].
    unfold Query.populate in E. apply find_some in E. now apply Nat.eqb_eq. }
  destruct Hp as (u & Hu & Hid).
  assert (Hcase : canModify reqUser a = false
                  <-> role reqUser = role_user /\ patient a <> id reqUser).
  { split.
    - intros C. destruct (role reqUser) eqn:R.
      + split; [reflexivity|]. intros E.
        assert (canModify reqUser a = true) by (apply canModify_spec; now right).
        congruence.
      + assert (canModify reqUser a = true)
          by (apply canModify_spec; left; rewrite R; discriminate). congruence.
      + assert (canModify reqUser a = true)
          by (apply canModify_spec; left; rewrite R; discriminate). congruence.
    - intros [R O]. destruct (canModify reqUser a) eqn:C; [|reflexivity].
      apply canModify_spec in C. destruct C; congruence. }
  assert (Hread : ~ (role reqUser = role_user /\ patient a <> id reqUser) ->
                  getAppointment users db reqUser i = ok a).
  { intros Hn. unfold getAppointment. rewrite Hf.
    destruct (Role_eqb (role reqUser) role_user) eqn:R; [|reflexivity].
    rewrite Hu. simpl. rewrite Hid.
    destruct (patient a =? id reqUser)%nat eqn:Q; [reflexivity|].
    exfalso. apply Hn. apply Nat.eqb_neq in Q. split; [|exact Q].
    destruct (role reqUser); simpl in R; congruence. }
  split; [|split; [|split; [|exact Hread]]].
  - split.
    + intros E. apply Hcase. destruct (canModify reqUser a) eqn:C; [|reflexivity].
      rewrite Hread in E; [discriminate|]. intros D. apply Hcase in D. congruence.
    + intros [R O]. unfold getAppointment. rewrite Hf, R. simpl. rewrite Hu. simpl.
      rewrite Hid. apply Nat.eqb_neq in O. now rewrite O.
  - intros body. rewrite <- Hcase. unfold updateAppointment. rewrite Hf.
    destruct (canModify reqUser a); simpl; split; try reflexivity; try discriminate.
    unfold findByIdAndUpdate. rewrite Hf.
    destruct (updateValidators body) as [e|[]] eqn:V; simpl; [|discriminate].
    destruct (updateValidators_failure body e V) as (p & m & ->). discriminate.
  - intros reason now. rewrite <- Hcase. unfold cancelAppointment. rewrite Hf.
    destruct (canModify reqUser a); simpl; split; try reflexivity; try discriminate.
    unfold save, validate, preSave. simpl.
    destruct (endTime a >? startTime a); simpl; [|discriminate].
    destruct (requiredString (Appointment.reason a)); simpl; discriminate.
Qed.

Lemma appointment_access_is_uniform_witness :
  getAppointment sampleUsers [morning; noon] carol 1
  = fail (AppError "You do not have access to this appointment" 403)
  /\ getAppointment sampleUsers [morning; noon] Spec.alice 1 = ok morning.
Proof.
  destruct (appointment_access_is_uniform sampleUsers [morning; noon] carol 1%nat morning)
    as (Hread & _); [reflexivity|discriminate|].
  destruct (appointment_access_is_uniform sampleUsers [morning; noon] Spec.alice 1%nat morning)
    as (_ & _ & _ & Hown); [reflexivity|discriminate|].
  split.
  - apply Hread. split; [reflexivity|discriminate].
  - apply Hown. intros [_ H]. apply H. reflexivity.
Defined.

(** ** Cancelling *)

Lemma cancelAppointment_valid db reqUser i reason now db' a' :
  cancelAppointment db reqUser i reason now = ok (db', a') ->
  validate a' = ok tt /\ findById db' i = Some a' /\ status a' = cancelled.
Proof.
  intros H. pose proof (cancelAppointment_ok _ _ _ _ _ _ _ H) as (a & Hf & _ & Ha' & Hdb').
  unfold cancelAppointment in H. rewrite Hf in H.
  destruct (canModify reqUser a); simpl in H; [|discriminate].
  rewrite <- Ha' in H. unfold save in H.
  destruct (validate a') as [e|[]]; simpl in H; [discriminate|].
  destruct (findById_id _ _ _ Hf) as [Hid _].
  assert (Hid' : _id a' = i) by (rewrite Ha'; exact Hid).
  split; [reflexivity|]. split.
  - rewrite Hdb', <- Hid'. apply (findById_replace db a' a). now rewrite Hid'.
  - rewrite Ha'. reflexivity.
Qed.

(** Cancelling has no guard against a second cancellation: once a cancel
    went through, any permitted caller can cancel again, which restamps
    [cancelledAt] and replaces the reason. *)
Theorem cancelAppointment_again db reqUser i reason now db' a' reqUser2 reason2 now2 :
  cancelAppointment db reqUser i reason now = ok (db', a') ->
  canModify reqUser2 a' = true ->
  exists a'',
    cancelAppointment db' reqUser2 i reason2 now2 = ok (replace db' a'', a'')
    /\ Cancelled a'' now2 reason2
    /\ startTime a'' = startTime a' /\ endTime a'' = endTime a'.
Proof.
  intros H Hcan.
  destruct (cancelAppointment_valid _ _ _ _ _ _ _ H) as (V & Hf' & _).
  unfold cancelAppointment. rewrite Hf', Hcan. simpl.
  unfold save. unfold validate in *. simpl in *.
  destruct (endTime a' >? startTime a'); simpl in *; [|discriminate].
  destruct (requiredString (Appointment.reason a')); simpl in *; [|discriminate].
  eexists. split; [reflexivity|]. unfold Cancelled. simpl. repeat split.
  unfold reasonOrDefault, truthy. destruct reason2 as [r|]; [|reflexivity].
  destruct (String.eqb r EmptyString); reflexivity.
Qed.

Lemma cancelAppointment_again_witness :
  exists a'',
    cancelAppointment [morningCancelled; noon] (mkReqUser 1 role_admin) 1 (Some "moved"%string) (at_ 9 0)
    = ok (replace [morningCancelled; noon] a'', a'')
    /\ Cancelled a'' (at_ 9 0) (Some "moved"%string)
    /\ startTime a'' = startTime morningCancelled /\ endTime a'' = endTime morningCancelled.
Proof.
  apply (cancelAppointment_again [morning; noon] Spec.alice 1%nat None (at_ 8 0)
           [morningCancelled; noon] morningCancelled (mkReqUser 1%nat role_admin) (Some "moved"%string) (at_ 9 0)).
  - reflexivity.
  - reflexivity.
Defined.



(** ** The shape of the slot list *)

From Stdlib Require Import Sorted Permutation.




Lemma getAvailableSlots_members tz users db clock date slots s :
  getAvailableSlots tz users db clock (Some date) = ok slots ->
  In s slots ->
  exists hour, 9 <= hour <= 16 /\ s = templateSlot tz date hour
               /\ keeps tz (filter (onSelectedDate tz
                                      (match findActiveAdmin users with
                                       | Some u => user_id u
                                       | None => 0%nat
                                       end) date) db)
                        clock date hour = true.
Proof.
  intros H Hs. destruct (findActiveAdmin users) as [adminUser|] eqn:Hadmin.
  2: { unfold getAvailableSlots in H. rewrite Hadmin in H. discriminate. }
  rewrite (getAvailableSlots_unfold tz users db clock date adminUser Hadmin) in H.
  assert (E : forall l : list Slot, ok l = ok slots -> l = slots)
    by (intros l E; now injection E).
  apply E in H. subst slots. clear E.
  apply in_map_iff in Hs. destruct Hs as [h [<- Hh]].
  apply filter_In in Hh. destruct Hh as [Hh Hk].
  apply hours_workingHours_range in Hh.
  exists h. split; [lia|]. split; [apply slotOf_template; lia|exact Hk].
Qed.





(** ** The requested day and the time zone of the server

    The booking page sends the date as [YYYY-MM-DD], which [new Date]
    reads as midnight UTC of that day: day number [d] (days since the
    epoch) gives the time value [d * msPerDay]. *)

(** On a server east of Greenwich (or on it) the slots offered for the day
    [d] are slots of the local day [d]; on a server west of it they are
    slots of the local day before. *)
Theorem slots_day_depends_on_zone tz users db clock d slots s :
  getAvailableSlots tz users db clock (Some (d * JSDate.msPerDay)) = ok slots ->
  In s slots ->
  (0 <= tz < JSDate.msPerDay ->
   JSDate.Day (JSDate.LocalTime tz (slot_startTime s)) = d)
  /\ (- JSDate.msPerDay <= tz < 0 ->
      JSDate.Day (JSDate.LocalTime tz (slot_startTime s)) = d - 1).
Proof.
  intros H Hs.
  destruct (getAvailableSlots_members tz users db clock (d * JSDate.msPerDay) slots s H Hs)
    as (h & Hh & -> & _).
  unfold templateSlot, JSDate.LocalTime, JSDate.Day. simpl. rewrite startOfDay_eq.
  unfold JSDate.msPerDay, JSDate.msPerHour in *.
  split; intros Htz.
  - assert (E : (d * 86400000 + tz) / 86400000 = d)
      by (symmetry; apply Z.div_unique with (r := tz); lia).
    rewrite E. symmetry. apply Z.div_unique with (r := h * 3600000); lia.
  - assert (E : (d * 86400000 + tz) / 86400000 = d - 1)
      by (symmetry; apply Z.div_unique with (r := tz + 86400000); lia).
    rewrite E. symmetry. apply Z.div_unique with (r := h * 3600000); lia.
Qed.

Lemma slots_day_depends_on_zone_witness :
  JSDate.Day (JSDate.LocalTime 7200000 (slot_startTime (templateSlot 7200000 june10 9)))
  = 20249
  /\ JSDate.Day (JSDate.LocalTime (-18000000)
                                  (slot_startTime (templateSlot (-18000000) june10 9)))
     = 20249 - 1.
Proof.
  split.
  - apply (proj1 (slots_day_depends_on_zone 7200000 sampleUsers [] (fun _ => 0) 20249
                    (map (templateSlot 7200000 june10) [9; 10; 11; 12; 13; 14; 15; 16])
                    (templateSlot 7200000 june10 9) eq_refl (or_introl eq_refl))).
    vm_compute. split; [discriminate|reflexivity].
  - apply (proj2 (slots_day_depends_on_zone (-18000000) sampleUsers [] (fun _ => 0) 20249
                    (map (templateSlot (-18000000) june10) [9; 10; 11; 12; 13; 14; 15; 16])
                    (templateSlot (-18000000) june10 9) eq_refl (or_introl eq_refl))).
    vm_compute. split; [discriminate|reflexivity].
Defined.

(** ** The booking page and the slot it was offered *)

Import bookingPage.

Lemma local_parts D h :
  0 <= h < 24 ->
  let lt := D * JSDate.msPerDay + h * JSDate.msPerHour in
  JSDate.Day lt = D /\ JSDate.HourFromTime lt = h /\ JSDate.MinFromTime lt = 0
  /\ JSDate.SecFromTime lt = 0 /\ JSDate.msFromTime lt = 0.
Proof.
  intros Hh lt. unfold lt, JSDate.Day, JSDate.HourFromTime, JSDate.MinFromTime,
    JSDate.SecFromTime, JSDate.msFromTime, JSDate.msPerDay, JSDate.msPerHour,
    JSDate.msPerMinute, JSDate.msPerSecond.
  assert (E1 : (D * 86400000 + h * 3600000) / 86400000 = D)
    by (symmetry; apply Z.div_unique with (r := h * 3600000); lia).
  assert (E2 : (D * 86400000 + h * 3600000) / 3600000 = D * 24 + h)
    by (symmetry; apply Z.div_unique with (r := 0); lia).
  assert (E3 : (D * 86400000 + h * 3600000) / 60000 = (D * 24 + h) * 60)
    by (symmetry; apply Z.div_unique with (r := 0); lia).
  assert (E4 : (D * 86400000 + h * 3600000) / 1000 = (D * 24 + h) * 3600)
    by (symmetry; apply Z.div_unique with (r := 0); lia).
  rewrite E1, E2, E3, E4. repeat split.
  - symmetry. apply Z.mod_unique with (q := D); lia.
  - symmetry. apply Z.mod_unique with (q := D * 24 + h); lia.
  - symmetry. apply Z.mod_unique with (q := (D * 24 + h) * 60); lia.
  - symmetry. apply Z.mod_unique with (q := (D * 24 + h) * 3600); lia.
Qed.

Lemma template_local tz date h :
  JSDate.LocalTime tz (slot_startTime (templateSlot tz date h))
  = (date + tz) / JSDate.msPerDay * JSDate.msPerDay + h * JSDate.msPerHour.
Proof. unfold templateSlot, JSDate.LocalTime. simpl. rewrite startOfDay_eq. lia. Qed.

Lemma handleSubmit_at_template tz ty date h reason v :
  0 <= h < 24 ->
  Consultation.trimEnd (Consultation.trimStart reason) <> EmptyString ->
  handleSubmit tz ty date (slotTime tz (templateSlot tz date h)) reason v
  = Some (mkBody (Some ty)
                 (Some (slot_startTime (templateSlot tz date h)))
                 (Some (slot_startTime (templateSlot tz date h)
                        + duration ty * JSDate.msPerMinute))
                 (Some reason) (Some (v || isVirtualType ty))).
Proof.
  intros Hh Hr. unfold handleSubmit, slotTime.
  apply String.eqb_neq in Hr. rewrite Hr.
  rewrite template_local.
  destruct (local_parts ((date + tz) / JSDate.msPerDay) h Hh) as (_ & EH & EM & _).
  simpl in EH, EM. rewrite EH, EM.
  assert (Es : JSDate.setHours tz date h 0 0 0 = slot_startTime (templateSlot tz date h)).
  { unfold templateSlot, JSDate.setHours, JSDate.UTC, JSDate.MakeDate, JSDate.MakeTime,
      JSDate.LocalTime, JSDate.Day. simpl. rewrite startOfDay_eq. lia. }
  rewrite Es. unfold JSDate.setMinutes, JSDate.getMinutes. rewrite template_local.
  destruct (local_parts ((date + tz) / JSDate.msPerDay) h Hh) as (ED & EH' & EM' & ES & EMS).
  simpl in ED, EH', EM', ES, EMS. rewrite ED, EH', EM', ES, EMS.
  do 3 f_equal. unfold templateSlot, JSDate.UTC, JSDate.MakeDate, JSDate.MakeTime. simpl.
  rewrite startOfDay_eq.
  unfold JSDate.msPerDay, JSDate.msPerHour, JSDate.msPerMinute, JSDate.msPerSecond. lia.
Qed.

Lemma handleSubmit_reason tz ty date time reason v body :
  handleSubmit tz ty date time reason v = Some body ->
  Consultation.trimEnd (Consultation.trimStart reason) <> EmptyString
  /\ reason <> EmptyString.
Proof.
  unfold handleSubmit.
  destruct (String.eqb (Consultation.trimEnd (Consultation.trimStart reason)) EmptyString)
    eqn:E; [discriminate|].
  intros _. apply String.eqb_neq in E. split; [exact E|].
  intros ->. apply E. reflexivity.
Qed.

Lemma duration_bounds ty : 30 <= duration ty <= 90.
Proof. destruct ty; simpl; lia. Qed.

(** With the browser in the server's time zone, the body the booking page
    sends for an offered slot starts at the slot's start and lasts the
    minutes of the appointment type (90, 60, 45 or 30), not the 60 minutes
    of the slot. *)
Theorem bookingPage_window tz ty date h reason v :
  0 <= h < 24 ->
  Consultation.trimEnd (Consultation.trimStart reason) <> EmptyString ->
  exists body,
    handleSubmit tz ty date (slotTime tz (templateSlot tz date h)) reason v = Some body
    /\ b_startTime body = Some (slot_startTime (templateSlot tz date h))
    /\ b_endTime body = Some (slot_startTime (templateSlot tz date h)
                              + duration ty * JSDate.msPerMinute)
    /\ (duration ty = 60 -> b_endTime body = Some (slot_endTime (templateSlot tz date h)))
    /\ b_appointmentType body = Some ty.
Proof.
  intros Hh Hr. eexists. split; [apply handleSubmit_at_template; assumption|].
  simpl. repeat split. intros ->. reflexivity.
Qed.

Lemma bookingPage_window_witness :
  exists body,
    handleSubmit 0 fitting june10 (slotTime 0 (templateSlot 0 june10 10)) "new socket" false
    = Some body
    /\ b_startTime body = Some (slot_startTime (templateSlot 0 june10 10))
    /\ b_endTime body = Some (slot_startTime (templateSlot 0 june10 10)
                              + duration fitting * JSDate.msPerMinute)
    /\ (duration fitting = 60 ->
        b_endTime body = Some (slot_endTime (templateSlot 0 june10 10)))
    /\ b_appointmentType body = Some fitting.
Proof.
  apply (bookingPage_window 0 fitting june10 10 "new socket" false).
  - lia.
  - vm_compute. discriminate.
Defined.

(** With the browser in the time zone of the server (one [tz] for both)
    and the page submitting the date the slots were asked for, a slot that
    was offered can be booked through the page for any type of at most 60
    minutes, provided the slot has not started when the booking arrives,
    the new id is free, and every live appointment of the admin or of the
    caller is one the slot query saw (an appointment of that admin starting
    on that day).  With the browser in another zone the page can submit
    another instant, and the statement does not apply. *)
Theorem offered_slot_is_bookable
        tz users db clock date adminUser slots h ty reason v body newId reqUser now :
  findActiveAdmin users = Some adminUser ->
  getAvailableSlots tz users db clock (Some date) = ok slots ->
  In (templateSlot tz date h) slots ->
  handleSubmit tz ty date (slotTime tz (templateSlot tz date h)) reason v = Some body ->
  duration ty <= 60 ->
  now <= slot_startTime (templateSlot tz date h) ->
  findById db newId = None ->
  (forall b, In b db -> status b <> cancelled ->
             admin b = user_id adminUser \/ patient b = id reqUser ->
             StartsOnDay tz (user_id adminUser) date b) ->
  exists a,
    createAppointment users db newId reqUser body now = ok (db ++ [a], a)
    /\ startTime a = slot_startTime (templateSlot tz date h)
    /\ endTime a = slot_startTime (templateSlot tz date h) + duration ty * JSDate.msPerMinute
    /\ status a = scheduled.
Proof.
  intros Hadmin Hrun Hin Hsub Hdur Hnow Hfresh Hseen.
  destruct (getAvailableSlots_members tz users db clock date slots _ Hrun Hin)
    as (h' & Hh' & E & Hk).
  apply templateSlot_inj in E. subst h'. rewrite Hadmin in Hk.
  apply keeps_spec in Hk. destruct Hk as [Hfree _].
  rewrite slotStart_eq, slotEnd_eq in Hfree by lia.
  destruct (handleSubmit_reason _ _ _ _ _ _ _ Hsub) as [Hr Hr'].
  rewrite handleSubmit_at_template in Hsub by (assumption || lia).
  injection Hsub as <-.
  pose proof (duration_bounds ty) as Hd.
  unfold templateSlot in *. simpl in Hnow. simpl.
  eexists. split; [|repeat split].
  unfold createAppointment. rewrite Hadmin. simpl.
  replace (_ <? now) with false by (symmetry; apply Z.ltb_ge; lia).
  replace (_ <=? _) with false
    by (symmetry; apply Z.leb_gt; unfold JSDate.msPerMinute; lia).
  unfold create. rewrite construct_valid; [|unfold JSDate.msPerMinute; lia|exact Hr'].
  simpl.
  match goal with |- context [preSave db ?x] => assert (P : preSave db x = ok tt) end.
  { apply preSave_ok. right. intros b Hb.
    match goal with |- conflictQuery ?x b = false =>
      destruct (conflictQuery x b) eqn:Q; [|reflexivity] end. exfalso.
    apply conflictQuery_spec in Q. simpl in Q.
    destruct Q as (Hsame & _ & Hlive & O1 & O2).
    apply (Hfree b).
    - apply filter_In. split; [exact Hb|]. apply onSelectedDate_spec.
      now apply Hseen.
    - unfold JSDate.msPerMinute in *. lia. }
  rewrite P. simpl. rewrite Hfresh. reflexivity.
  all: reflexivity.
Qed.

(** The 90 minutes of a fitting overrun the 60-minute slot.  With the
    browser in the time zone of the server (one [tz] for both), the page
    submitting the date the slots were asked for, and the slot not yet
    started when the booking arrives: when a live appointment of the admin
    starts within half an hour after the slot ends, it does not block the
    slot, and yet the fitting the page sends for that slot is refused with
    the conflict error.  (A slot that has started is refused earlier, as a
    booking in the past.) *)
Theorem fitting_overruns_its_slot
        tz users db date adminUser h reason v body newId reqUser now b :
  findActiveAdmin users = Some adminUser ->
  0 <= h < 24 ->
  handleSubmit tz fitting date (slotTime tz (templateSlot tz date h)) reason v = Some body ->
  now <= slot_startTime (templateSlot tz date h) ->
  In b db -> _id b <> newId -> status b <> cancelled -> admin b = user_id adminUser ->
  slot_endTime (templateSlot tz date h) <= startTime b ->
  startTime b < slot_endTime (templateSlot tz date h) + 30 * JSDate.msPerMinute ->
  startTime b < endTime b ->
  ~ Intersects (templateSlot tz date h) b
  /\ createAppointment users db newId reqUser body now
     = fail (HookError "Time slot is already booked" 400).
Proof.
  intros Hadmin Hh Hsub Hnow Hb Hid Hlive Had Hs1 Hs2 Hlt.
  split.
  - unfold Intersects. lia.
  - destruct (handleSubmit_reason _ _ _ _ _ _ _ Hsub) as [Hr Hr'].
    rewrite handleSubmit_at_template in Hsub by assumption.
    injection Hsub as <-.
    apply (booking_conflict_helper users db newId reqUser fitting _ _ reason _ now
             adminUser b); try assumption.
    + simpl. unfold JSDate.msPerMinute. lia.
    + now left.
    + unfold templateSlot in *. simpl in *. unfold JSDate.msPerMinute in *. lia.
    + unfold templateSlot in *. simpl in *. unfold JSDate.msPerMinute in *. lia.
Qed.

Lemma offered_slot_is_bookable_witness :
  exists a,
    createAppointment sampleUsers [morning] 3 carol
      (mkBody (Some consultation) (Some (at_ 9 0)) (Some (at_ 10 0))
              (Some "check"%string) (Some false)) (at_ 8 0)
    = ok ([morning] ++ [a], a)
    /\ startTime a = slot_startTime (templateSlot 0 june10 9)
    /\ endTime a = slot_startTime (templateSlot 0 june10 9)
                   + duration consultation * JSDate.msPerMinute
    /\ status a = scheduled.
Proof.
  apply (offered_slot_is_bookable 0 sampleUsers [morning] earlyClock june10 theAdmin
           (map (templateSlot 0 june10) [9; 11; 12; 13; 14; 15; 16]) 9 consultation
           "check" false _ 3%nat carol (at_ 8 0)).
  - reflexivity.
  - reflexivity.
  - left; reflexivity.
  - reflexivity.
  - simpl; lia.
  - vm_compute; discriminate.
  - reflexivity.
  - intros b [<-|[]] _ _. repeat split; try discriminate; vm_compute; discriminate.
Defined.

Lemma fitting_overruns_its_slot_witness :
  ~ Intersects (templateSlot 0 june10 10) (appt 2 8 scheduled (at_ 11 0) (at_ 12 0))
  /\ createAppointment sampleUsers [appt 2 8 scheduled (at_ 11 0) (at_ 12 0)] 3 carol
       (mkBody (Some fitting) (Some (at_ 10 0)) (Some (at_ 11 30))
               (Some "new socket"%string) (Some false)) (at_ 8 0)
     = fail (HookError "Time slot is already booked" 400).
Proof.
  apply (fitting_overruns_its_slot 0 sampleUsers [appt 2 8 scheduled (at_ 11 0) (at_ 12 0)]
           june10 theAdmin 10 "new socket" false _ 3%nat carol (at_ 8 0)
           (appt 2 8 scheduled (at_ 11 0) (at_ 12 0))).
  - reflexivity.
  - lia.
  - reflexivity.
  - vm_compute; discriminate.
  - left; reflexivity.
  - discriminate.
  - discriminate.
  - reflexivity.
  - vm_compute; discriminate.
  - vm_compute; reflexivity.
  - vm_compute; reflexivity.
Defined.

(** ** The routes of the appointment router *)

Import appointmentRoutes.

Lemma dispatch_sound m path r :
  dispatch m path = Some r ->
  In r routes /\ Method_eqb (r_method r) m = true /\ matchPath (r_path r) path = true.
Proof.
  unfold dispatch. intros H. apply find_some in H. destruct H as [Hin H].
  apply andb_true_iff in H. tauto.
Qed.

Lemma matchPath_literal l path :
  matchPath [lit l] path = true ->
  exists s, path = [s] /\ lower l = lower s.
Proof.
  destruct path as [|s [|s' path]]; simpl; try discriminate.
  - rewrite andb_true_r. intros E. apply String.eqb_eq in E. now exists s.
  - rewrite andb_false_r. discriminate.
Qed.

(** A single segment that reads [all] or [admin] is taken by [/:id]. *)
Lemma shadowed_by_id name s :
  name = "all"%string \/ name = "admin"%string ->
  lower name = lower s ->
  option_map r_handler (dispatch GET [s]) = Some getAppointment.
Proof.
  intros Hn E. unfold dispatch, routes.
  cbn [find Method_eqb r_method r_path matchPath matchSegment andb].
  rewrite <- E.
  assert (Hs : String.eqb s EmptyString = false).
  { destruct s; [|reflexivity]. destruct Hn; subst name; discriminate E. }
  rewrite Hs. destruct Hn; subst name; reflexivity.
Qed.

(** No request reaches [getAllAppointments] or [getAdminAppointments]: the
    paths [/all] and [/admin] are registered after [/:id], which matches
    them first, so a GET of either is handled by [getAppointment] with the
    id ['all'] or ['admin'], and the [restrictTo] in front of the two
    listings never runs. *)
Theorem listings_are_shadowed m path :
  (forall r, dispatch m path = Some r ->
             r_handler r <> getAllAppointments /\ r_handler r <> getAdminAppointments)
  /\ option_map r_handler (dispatch GET ["all"%string]) = Some getAppointment
  /\ option_map r_handler (dispatch GET ["admin"%string]) = Some getAppointment.
Proof.
  split; [|split; reflexivity].
  intros r H. destruct (dispatch_sound m path r H) as (Hin & Hm & Hp).
  assert (Hcase : forall name,
             name = "all"%string \/ name = "admin"%string ->
             r_method r = GET -> r_path r = [lit name] ->
             option_map r_handler (Some r) = Some getAppointment).
  { intros name Hn Hmeth Hpath. rewrite Hmeth in Hm. rewrite Hpath in Hp.
    destruct m; simpl in Hm; try discriminate.
    destruct (matchPath_literal name path Hp) as (s & -> & E).
    rewrite <- H. now apply (shadowed_by_id name). }
  unfold routes in Hin. simpl in Hin.
  destruct Hin as [<-|[<-|[<-|[<-|[<-|[<-|[<-|[<-|[]]]]]]]]];
    simpl; split; try discriminate; intros _.
  - specialize (Hcase "all"%string (or_introl eq_refl) eq_refl eq_refl). discriminate Hcase.
  - specialize (Hcase "admin"%string (or_intror eq_refl) eq_refl eq_refl). discriminate Hcase.
Qed.

(** ** Listings *)

Import appointmentReads.

Lemma insertBy_perm {A} (key : A -> Z) x l :
  Permutation (Query.insertBy key x l) (x :: l).
Proof.
  induction l as [|y l IH]; simpl; [reflexivity|].
  destruct (key x <=? key y); [reflexivity|].
  rewrite IH. apply perm_swap.
Qed.

Lemma sortBy_perm {A} (key : A -> Z) l : Permutation (Query.sortBy key l) l.
Proof.
  induction l as [|x l IH]; simpl; [reflexivity|].
  rewrite insertBy_perm. now constructor.
Qed.

Lemma insertBy_sorted {A} (key : A -> Z) x l :
  StronglySorted (fun a b => key a <= key b) l ->
  StronglySorted (fun a b => key a <= key b) (Query.insertBy key x l).
Proof.
  induction 1 as [|y l Hs IH Hy]; simpl.
  - constructor; constructor.
  - destruct (key x <=? key y) eqn:Q.
    + apply Z.leb_le in Q. constructor; [now constructor|].
      constructor; [exact Q|]. rewrite Forall_forall in *. intros z Hz.
      specialize (Hy z Hz). lia.
    + apply Z.leb_gt in Q. constructor; [exact IH|].
      rewrite Forall_forall in *. intros z Hz.
      apply (Permutation_in _ (insertBy_perm key x l)) in Hz.
      destruct Hz as [<-|Hz]; [lia|now apply Hy].
Qed.

Lemma sortBy_sorted {A} (key : A -> Z) l :
  StronglySorted (fun a b => key a <= key b) (Query.sortBy key l).
Proof.
  induction l as [|x l IH]; simpl; [constructor|]. now apply insertBy_sorted.
Qed.

(** Each listing returns exactly the records its filter selects, cancelled
    ones included and each as often as it is stored, in ascending order of
    start time, and [results] counts them: [getMyAppointments] the caller's
    appointments as patient, [getAdminAppointments] the caller's as admin,
    [getAllAppointments] all of them. *)
Theorem listings_select_and_sort db reqUser :
  (Permutation (appointments (getMyAppointments db reqUser))
               (filter (fun a => (patient a =? id reqUser)%nat) db)
   /\ (forall a, In a (appointments (getMyAppointments db reqUser))
                 <-> In a db /\ patient a = id reqUser)
   /\ StronglySorted (fun a b => startTime a <= startTime b)
                     (appointments (getMyAppointments db reqUser))
   /\ results (getMyAppointments db reqUser)
      = List.length (appointments (getMyAppointments db reqUser)))
  /\ (Permutation (appointments (getAdminAppointments db reqUser))
                  (filter (fun a => (admin a =? id reqUser)%nat) db)
      /\ StronglySorted (fun a b => startTime a <= startTime b)
                        (appointments (getAdminAppointments db reqUser)))
  /\ (Permutation (appointments (getAllAppointments db)) db
      /\ StronglySorted (fun a b => startTime a <= startTime b)
                        (appointments (getAllAppointments db))
      /\ results (getAllAppointments db) = List.length db).
Proof.
  unfold getMyAppointments, getAdminAppointments, getAllAppointments, listing. simpl.
  assert (Hmem : forall a,
             In a (Query.sortBy startTime (filter (fun a => (patient a =? id reqUser)%nat) db))
             <-> In a db /\ patient a = id reqUser).
  { intros a. split.
    - intros Ha. apply (Permutation_in _ (sortBy_perm _ _)) in Ha.
      apply filter_In in Ha. destruct Ha as [Ha Hp]. apply Nat.eqb_eq in Hp. now split.
    - intros [Ha Hp]. apply (Permutation_in _ (Permutation_sym (sortBy_perm _ _))).
      apply filter_In. split; [exact Ha|]. now apply Nat.eqb_eq. }
  split; [|split].
  - split; [apply sortBy_perm|]. split; [exact Hmem|].
    split; [apply sortBy_sorted|reflexivity].
  - split; [apply sortBy_perm|apply sortBy_sorted].
  - split; [apply sortBy_perm|]. split; [apply sortBy_sorted|].
    apply Permutation_length. apply sortBy_perm.
Qed.

(** * Further properties of the consultation handlers *)

Import Consultation consultationController ConsultationSpec consultationReads.

Lemma validate_preSaveDuration c : validate (preSaveDuration c) = validate c.
Proof.
  apply validate_ext; unfold preSaveDuration;
    destruct (actualStartTime c), (actualEndTime c); try reflexivity;
    destruct (noDuration (duration c)); reflexivity.
Qed.

Lemma consultation_findById_replace db this x :
  findById db (_id this) = Some x -> findById (replace db this) (_id this) = Some this.
Proof.
  unfold findById, replace. induction db as [|y db IH]; simpl; [discriminate|].
  destruct (_id y =? _id this)%nat eqn:Q; simpl.
  - intros _. now rewrite Nat.eqb_refl.
  - rewrite Q. exact IH.
Qed.

Lemma consultation_findById_id db i c : findById db i = Some c -> _id c = i.
Proof.
  unfold findById. intros H. apply find_some in H. destruct H as [_ H].
  now apply Nat.eqb_eq.
Qed.

(** What the start method returns on a valid record. *)
Lemma startConsultation_method_ok db now c :
  validate c = ok tt ->
  exists c1,
    Consultation.startConsultation db now c = ok (replace db c1, c1)
    /\ _id c1 = _id c /\ status c1 = active /\ actualStartTime c1 = Some now
    /\ participants c1 = participants c /\ validate c1 = ok tt.
Proof.
  intros V. unfold Consultation.startConsultation.
  set (c0 := set_actualStartTime (Some now) (set_status active c)).
  assert (V0 : validate c0 = ok tt) by (rewrite <- V; now apply validate_ext).
  rewrite (save_valid db now c0 V0). exists (preSaveDuration c0).
  destruct (preSaveDuration_frame c0) as (Hi & Hs & Hp & Ha & _).
  rewrite Hi, Hs, Hp, Ha, validate_preSaveDuration. repeat split; assumption.
Qed.

(** What the end method returns on a valid record that was started. *)
Lemma endConsultation_method_ok db now notes c t0 :
  validate c = ok tt -> actualStartTime c = Some t0 ->
  exists c1,
    Consultation.endConsultation db now notes c = ok (replace db c1, c1)
    /\ _id c1 = _id c /\ status c1 = completed /\ actualEndTime c1 = Some now
    /\ actualStartTime c1 = Some t0
    /\ duration c1 = Some ((now - t0 + 30000) / 60000)
    /\ Consultation.notes c1 = (if truthy notes then trimmed notes else Consultation.notes c)
    /\ patientNotes c1 = patientNotes c /\ practitionerNotes c1 = practitionerNotes c
    /\ validate c1 = ok tt.
Proof.
  intros V Ht0. unfold Consultation.endConsultation.
  set (c1 := set_actualEndTime (Some now) (set_status completed c)).
  set (c2 := if truthy notes then set_notes notes c1 else c1).
  assert (H2 : roomId c2 = roomId c /\ participants c2 = participants c
               /\ feedback c2 = feedback c /\ status c2 = completed
               /\ actualEndTime c2 = Some now /\ actualStartTime c2 = Some t0
               /\ _id c2 = _id c
               /\ Consultation.notes c2
                  = (if truthy notes then trimmed notes else Consultation.notes c)
               /\ patientNotes c2 = patientNotes c
               /\ practitionerNotes c2 = practitionerNotes c).
  { unfold c2. destruct (truthy notes); simpl; repeat split; assumption. }
  destruct H2 as (Hr & Hp & Hfb & Hs & He & Ha & Hi & Hn & Hpn & Hprn).
  rewrite He, Ha. simpl.
  set (d := (now - t0 + 30000) / 60000).
  set (c3 := set_duration (Some d) c2).
  assert (V3 : validate c3 = ok tt) by (rewrite <- V; now apply validate_ext).
  rewrite (save_valid db now c3 V3).
  exists (preSaveDuration c3). split; [reflexivity|].
  rewrite validate_preSaveDuration.
  destruct (preSaveDuration_frame c3) as (Hi3 & Hs3 & _ & Ha3 & He3 & Hn3).
  rewrite Hi3, Hs3, Ha3, He3, Hn3. simpl.
  assert (Hd : preSaveDuration c3 = c3).
  { unfold preSaveDuration. simpl. rewrite Ha, He. simpl. fold d.
    destruct (d =? 0); reflexivity. }
  rewrite Hd. simpl. repeat split; assumption.
Qed.

(** Starting a consultation and then ending it leaves it completed, with a
    duration that is the rounded number of minutes between the two calls and
    is not negative when the clock did not run backwards. *)
Theorem start_then_end db now now' notes c db1 c1 :
  validate c = ok tt ->
  now <= now' ->
  Consultation.startConsultation db now c = ok (db1, c1) ->
  exists c2,
    Consultation.endConsultation db1 now' notes c1 = ok (replace db1 c2, c2)
    /\ status c2 = completed
    /\ actualStartTime c2 = Some now /\ actualEndTime c2 = Some now'
    /\ duration c2 = Some ((now' - now + 30000) / 60000)
    /\ 0 <= (now' - now + 30000) / 60000.
Proof.
  intros V Hle H.
  destruct (startConsultation_method_ok db now c V) as (c1' & E & _ & _ & Ha & _ & V1).
  rewrite E in H. injection H as <- <-.
  destruct (endConsultation_method_ok (replace db c1') now' notes c1' now V1 Ha)
    as (c2 & E2 & _ & Hs & He & Ha2 & Hd & _).
  exists c2. repeat split; try assumption.
  apply Z.div_pos; lia.
Qed.

Lemma start_then_end_witness :
  exists c2,
    Consultation.endConsultation
      [set_actualStartTime (Some 1749549600000) (room active [])] 1749552000000 None
      (set_actualStartTime (Some 1749549600000) (room active []))
    = ok (replace [set_actualStartTime (Some 1749549600000) (room active [])] c2, c2)
    /\ status c2 = completed
    /\ actualStartTime c2 = Some 1749549600000 /\ actualEndTime c2 = Some 1749552000000
    /\ duration c2 = Some ((1749552000000 - 1749549600000 + 30000) / 60000)
    /\ 0 <= (1749552000000 - 1749549600000 + 30000) / 60000.
Proof.
  apply (start_then_end [room scheduled []] 1749549600000 1749552000000 None
                        (room scheduled [])).
  - reflexivity.
  - lia.
  - reflexivity.
Defined.

Lemma set_duration_same c : set_duration (duration c) c = c.
Proof. destruct c; reflexivity. Qed.

Lemma run_ok db db' c k : run db (ok (db', c)) k = k db' c.
Proof. reflexivity. Qed.

Lemma run_fail db e k : run db (fail e) k = (db, fail e).
Proof. reflexivity. Qed.

(** The start handler is not atomic.  When an admitted caller has no entry
    in [participants], the start itself is saved (the stored record is
    active, with [actualStartTime] stamped) and then recording the caller
    fails on the missing [role]: the request answers with the validation
    error although the consultation has been started. *)
Theorem startConsultation_half_done db now now' reqUser i c :
  findById db i = Some c ->
  notParticipantOrAdmin reqUser c = false ->
  validate c = ok tt ->
  findParticipant (participants c) (id reqUser) = None ->
  exists c1,
    startConsultation db now now' reqUser i
    = (replace db c1, fail (ValidationError "participants.role" "Path `role` is required."))
    /\ findById (replace db c1) i = Some c1
    /\ status c1 = active /\ actualStartTime c1 = Some now.
Proof.
  intros Hf Ha V Hp.
  destruct (startConsultation_method_ok db now c V) as (c1 & E & Hi & Hs & Hst & Hps & V1).
  assert (Hp1 : findParticipant (participants c1) (id reqUser) = None)
    by (rewrite Hps; exact Hp).
  exists c1. unfold startConsultation. rewrite Hf, Ha, E, run_ok.
  unfold addParticipant. rewrite Hp1.
  rewrite (save_invalid _ _ _ _ (validate_new_participant c1 (id reqUser) now' V1)).
  rewrite run_fail. repeat split; try assumption.
  pose proof (consultation_findById_id _ _ _ Hf) as Hid.
  rewrite <- Hid, <- Hi. apply (consultation_findById_replace db c1 c).
  now rewrite Hi, Hid.
Qed.

Lemma startConsultation_half_done_witness :
  exists c1,
    startConsultation [room scheduled []] 1749549600000 1749549600005
                      ConsultationSpec.alice 50
    = (replace [room scheduled []] c1,
       fail (ValidationError "participants.role" "Path `role` is required."))
    /\ findById (replace [room scheduled []] c1) 50 = Some c1
    /\ status c1 = active /\ actualStartTime c1 = Some 1749549600000.
Proof.
  apply (startConsultation_half_done [room scheduled []] 1749549600000 1749549600005
                                     ConsultationSpec.alice 50%nat (room scheduled []));
    reflexivity.
Defined.

(** The end handler, called by the practitioner (or an admin) on a valid
    consultation that was started: the stored record is completed, ended at
    the current instant, with the rounded duration; the three notes of the
    body replace the stored ones when they are non-empty and leave them
    alone otherwise. *)
Theorem endConsultation_by_practitioner
        db now now' reqUser i c t0 notes patientNotes practitionerNotes :
  findById db i = Some c ->
  practitioner c = id reqUser \/ role reqUser = role_admin ->
  validate c = ok tt ->
  actualStartTime c = Some t0 ->
  exists db2 c2,
    endConsultation db now now' reqUser i notes patientNotes practitionerNotes
    = (db2, ok c2)
    /\ findById db2 i = Some c2
    /\ status c2 = completed /\ actualEndTime c2 = Some now
    /\ duration c2 = Some ((now - t0 + 30000) / 60000)
    /\ Consultation.notes c2
       = (if truthy notes then trimmed notes else Consultation.notes c)
    /\ Consultation.patientNotes c2
       = (if truthy patientNotes then trimmed patientNotes
          else Consultation.patientNotes c)
    /\ Consultation.practitionerNotes c2
       = (if truthy practitionerNotes then trimmed practitionerNotes
          else Consultation.practitionerNotes c).
Proof.
  intros Hf Hauth V Ht0.
  destruct (endConsultation_method_ok db now notes c t0 V Ht0)
    as (c1 & E & Hi & Hs & He & Ha & Hd & Hn & Hpn & Hprn & V1).
  pose proof (consultation_findById_id _ _ _ Hf) as Hid.
  unfold endConsultation. rewrite Hf.
  assert (Hgate : negb (practitioner c =? id reqUser)%nat
                  && negb (Role_eqb (role reqUser) role_admin) = false).
  { destruct Hauth as [Hp|Hr].
    - rewrite Hp, Nat.eqb_refl. reflexivity.
    - rewrite Hr. simpl. apply andb_false_r. }
  rewrite Hgate, E, run_ok.
  set (c1a := if truthy patientNotes then set_patientNotes patientNotes c1 else c1).
  set (c1b := if truthy practitionerNotes
              then set_practitionerNotes practitionerNotes c1a else c1a).
  assert (Hb : roomId c1b = roomId c1 /\ participants c1b = participants c1
               /\ feedback c1b = feedback c1 /\ _id c1b = _id c1
               /\ status c1b = status c1 /\ actualEndTime c1b = actualEndTime c1
               /\ actualStartTime c1b = actualStartTime c1
               /\ duration c1b = duration c1
               /\ Consultation.notes c1b = Consultation.notes c1
               /\ Consultation.patientNotes c1b
                  = (if truthy patientNotes then trimmed patientNotes
                     else Consultation.patientNotes c1)
               /\ Consultation.practitionerNotes c1b
                  = (if truthy practitionerNotes then trimmed practitionerNotes
                     else Consultation.practitionerNotes c1)).
  { unfold c1b, c1a.
    destruct (truthy patientNotes), (truthy practitionerNotes); simpl;
      repeat split; reflexivity. }
  destruct Hb as (Br & Bp & Bf & Bi & Bs & Be & Ba & Bd & Bn & Bpn & Bprn).
  assert (Vb : validate c1b = ok tt) by (rewrite <- V1; now apply validate_ext).
  fold c1a. fold c1b. rewrite (save_valid _ now' c1b Vb), run_ok.
  assert (Hset : preSaveDuration c1b = c1b).
  { assert (Hdur : duration c1b = Some ((now - t0 + 30000) / 60000))
      by (rewrite Bd; exact Hd).
    unfold preSaveDuration. rewrite Ba, Be, Ha, He, Hdur. simpl.
    destruct ((now - t0 + 30000) / 60000 =? 0); [|reflexivity].
    rewrite <- Hdur. apply set_duration_same. }
  rewrite Hset.
  exists (replace (replace db c1) c1b), c1b. split; [reflexivity|].
  split.
  - rewrite <- Hid, <- Hi, <- Bi.
    apply (consultation_findById_replace (replace db c1) c1b c1).
    rewrite Bi. apply (consultation_findById_replace db c1 c). now rewrite Hi, Hid.
  - rewrite Bs, Be, Bd, Bn, Bpn, Bprn, Hs, He, Hd, Hn, Hpn, Hprn. repeat split.
Qed.

Lemma endConsultation_by_practitioner_witness :
  exists db2 c2,
    endConsultation [set_actualStartTime (Some 1749549600000) (room active [])]
                    1749552000000 1749552000009 (mkReqUser 1 role_user) 50
                    (Some "  fitted well "%string) None None
    = (db2, ok c2)
    /\ findById db2 50 = Some c2
    /\ status c2 = completed /\ actualEndTime c2 = Some 1749552000000
    /\ duration c2 = Some ((1749552000000 - 1749549600000 + 30000) / 60000)
    /\ Consultation.notes c2
       = (if truthy (Some "  fitted well "%string)
          then trimmed (Some "  fitted well "%string)
          else Consultation.notes (set_actualStartTime (Some 1749549600000) (room active [])))
    /\ Consultation.patientNotes c2
       = (if truthy None then trimmed None
          else Consultation.patientNotes
                 (set_actualStartTime (Some 1749549600000) (room active [])))
    /\ Consultation.practitionerNotes c2
       = (if truthy None then trimmed None
          else Consultation.practitionerNotes
                 (set_actualStartTime (Some 1749549600000) (room active []))).
Proof.
  apply (endConsultation_by_practitioner
           [set_actualStartTime (Some 1749549600000) (room active [])]
           1749552000000 1749552000009 (mkReqUser 1%nat role_user) 50%nat
           (set_actualStartTime (Some 1749549600000) (room active []))
           1749549600000 (Some "  fitted well "%string) None None).
  - reflexivity.
  - left; reflexivity.
  - reflexivity.
  - reflexivity.
Defined.

(** Where a note lands.  With type ['patient'] from the patient it becomes
    [patientNotes]; with type ['practitioner'] from the practitioner it
    becomes [practitionerNotes]; in every other case (another type, or a
    type that does not fit the caller) it replaces the shared [notes].  The
    two other note fields and [status] are untouched, and no state of the
    consultation is excluded. *)
Theorem addNotes_routing db now reqUser i c text type :
  findById db i = Some c ->
  notParticipantOrAdmin reqUser c = false ->
  validate c = ok tt ->
  exists c',
    addNotes db now reqUser i text type = (replace db c', ok c')
    /\ status c' = status c
    /\ (type = type_patient -> patient c = id reqUser ->
        patientNotes c' = trimmed text
        /\ notes c' = notes c /\ practitionerNotes c' = practitionerNotes c)
    /\ (type = type_practitioner -> practitioner c = id reqUser ->
        practitionerNotes c' = trimmed text
        /\ notes c' = notes c /\ patientNotes c' = patientNotes c)
    /\ ((type = type_other
         \/ (type = type_patient /\ patient c <> id reqUser)
         \/ (type = type_practitioner /\ practitioner c <> id reqUser)) ->
        notes c' = trimmed text
        /\ patientNotes c' = patientNotes c /\ practitionerNotes c' = practitionerNotes c).
Proof.
  intros Hf Ha V. unfold addNotes. rewrite Hf, Ha.
  match goal with |- context [save db now ?x] => set (c1 := x) end.
  assert (H1 : roomId c1 = roomId c /\ participants c1 = participants c
               /\ feedback c1 = feedback c).
  { unfold c1. destruct type; simpl;
      try destruct (patient c =? id reqUser)%nat;
      try destruct (practitioner c =? id reqUser)%nat; simpl; repeat split; reflexivity. }
  destruct H1 as (Hr & Hp & Hfb).
  assert (V1 : validate c1 = ok tt) by (rewrite <- V; now apply validate_ext).
  rewrite (save_valid db now c1 V1), run_ok.
  exists (preSaveDuration c1). split; [reflexivity|].
  pose proof (preSaveDuration_same c1) as Hsame. unfold SameButDuration in Hsame.
  assert (Hnotes : notes (preSaveDuration c1) = notes c1
                   /\ patientNotes (preSaveDuration c1) = patientNotes c1
                   /\ practitionerNotes (preSaveDuration c1) = practitionerNotes c1
                   /\ status (preSaveDuration c1) = status c1).
  { rewrite <- Hsame at 2 4 6 8. destruct (preSaveDuration c1). repeat split; reflexivity. }
  destruct Hnotes as (N1 & N2 & N3 & N4). rewrite N1, N2, N3, N4.
  unfold c1. split; [|split; [|split]].
  - destruct type; simpl;
      try destruct (patient c =? id reqUser)%nat;
      try destruct (practitioner c =? id reqUser)%nat; reflexivity.
  - intros -> Hpa. rewrite Hpa, Nat.eqb_refl. simpl. repeat split.
  - intros -> Hpr. rewrite Hpr, Nat.eqb_refl. simpl. repeat split.
  - intros [->|[[-> Hn]|[-> Hn]]].
    + simpl. repeat split.
    + apply Nat.eqb_neq in Hn. rewrite Hn. simpl. repeat split.
    + apply Nat.eqb_neq in Hn. rewrite Hn. simpl. repeat split.
Qed.

Lemma addNotes_routing_witness :
  exists c',
    addNotes [room completed []] 1749552000000 (mkReqUser 1 role_admin) 50
             (Some " review in two weeks "%string) type_patient
    = (replace [room completed []] c', ok c')
    /\ status c' = completed
    /\ notes c' = Some "review in two weeks"%string
    /\ patientNotes c' = None /\ practitionerNotes c' = None.
Proof.
  destruct (addNotes_routing [room completed []] 1749552000000 (mkReqUser 1%nat role_admin)
              50%nat (room completed []) (Some " review in two weeks "%string) type_patient)
    as (c' & E & Hs & _ & _ & Hother).
  - reflexivity.
  - reflexivity.
  - reflexivity.
  - exists c'. split; [exact E|]. split; [exact Hs|].
    apply Hother. right. left. split; [reflexivity|discriminate].
Defined.

(** ** Feedback *)





(** ** Durations *)

(** Whenever [endConsultation] goes through, the consultation had been
    started, and the duration stored is the elapsed time rounded to a
    minute: it is off by at most half a minute, and it is what the virtual
    [calculatedDuration] computes from the stored record. *)
Theorem endConsultation_duration db now notes c db' c' :
  validate c = ok tt ->
  Consultation.endConsultation db now notes c = ok (db', c') ->
  exists t0 d,
    actualStartTime c = Some t0
    /\ duration c' = Some d
    /\ 60000 * d - 30000 <= now - t0 < 60000 * d + 30000
    /\ calculatedDuration c' = Some d.
Proof.
  intros V H. destruct (actualStartTime c) as [t0|] eqn:Ht0.
  - destruct (endConsultation_method_ok db now notes c t0 V Ht0)
      as (c1 & E & _ & _ & He & Ha & Hd & _).
    rewrite E in H. injection H as <- <-.
    exists t0, ((now - t0 + 30000) / 60000). split; [reflexivity|]. split; [exact Hd|].
    split.
    + pose proof (Z.div_mod (now - t0 + 30000) 60000 ltac:(lia)).
      pose proof (Z.mod_pos_bound (now - t0 + 30000) 60000 ltac:(lia)). lia.
    + unfold calculatedDuration. rewrite Ha, He. reflexivity.
  - exfalso. unfold Consultation.endConsultation in H.
    assert (E : actualStartTime
                  (if truthy notes
                   then set_notes notes (set_actualEndTime (Some now) (set_status completed c))
                   else set_actualEndTime (Some now) (set_status completed c)) = None)
      by (destruct (truthy notes); exact Ht0).
    rewrite E in H.
    destruct (actualEndTime _); discriminate H.
Qed.

Lemma endConsultation_duration_witness :
  exists t0 d,
    actualStartTime (set_actualStartTime (Some 1749549600000) (room active []))
    = Some t0
    /\ duration (set_duration (Some 40)
                  (set_actualEndTime (Some 1749552010000)
                    (set_status completed
                      (set_actualStartTime (Some 1749549600000) (room active [])))))
       = Some d
    /\ 60000 * d - 30000 <= 1749552010000 - t0 < 60000 * d + 30000
    /\ calculatedDuration
         (set_duration (Some 40)
            (set_actualEndTime (Some 1749552010000)
               (set_status completed
                  (set_actualStartTime (Some 1749549600000) (room active [])))))
       = Some d.
Proof.
  apply (endConsultation_duration
           [set_actualStartTime (Some 1749549600000) (room active [])]
           1749552010000 None
           (set_actualStartTime (Some 1749549600000) (room active []))
           [set_duration (Some 40)
              (set_actualEndTime (Some 1749552010000)
                 (set_status completed
                    (set_actualStartTime (Some 1749549600000) (room active []))))]).
  - reflexivity.
  - reflexivity.
Defined.

(** Saving is idempotent, and the hook that would generate a room id never
    fires: a save that goes through leaves [roomId] as it was (validation,
    which runs first, has already required it), and saving the saved record
    again changes nothing in it. *)
Theorem save_is_idempotent db now now' c db1 c1 :
  save db now c = ok (db1, c1) ->
  roomId c1 = roomId c
  /\ truthy (roomId c) = true
  /\ save db1 now' c1 = ok (replace db1 c1, c1).
Proof.
  unfold save at 1. unfold beforeSave.
  destruct (validate c) as [e|[]] eqn:V; simpl; [discriminate|].
  intros H. injection H as <- <-.
  pose proof (validate_roomId c V) as Hr.
  unfold preSaveRoomId. rewrite Hr. simpl.
  assert (Hroom : roomId (preSaveDuration c) = roomId c).
  { pose proof (preSaveDuration_same c) as Hsame. unfold SameButDuration in Hsame.
    rewrite <- Hsame at 2. destruct (preSaveDuration c); reflexivity. }
  split; [exact Hroom|]. split; [reflexivity|].
  assert (V1 : validate (preSaveDuration c) = ok tt)
    by (rewrite validate_preSaveDuration; exact V).
  rewrite (save_valid _ now' _ V1).
  pose proof (preSaveDuration_settled c) as Hs. unfold Settled in Hs. now rewrite Hs.
Qed.

Lemma save_is_idempotent_witness :
  roomId finishedRoom = roomId finishedRoom
  /\ truthy (roomId finishedRoom) = true
  /\ save [finishedRoom] 1749553000001 finishedRoom
     = ok (replace [finishedRoom] finishedRoom, finishedRoom).
Proof.
  apply (save_is_idempotent [finishedRoom] 1749553000000 1749553000001 finishedRoom
                            [finishedRoom] finishedRoom).
  reflexivity.
Defined.

(** ** Joining again, leaving *)

Lemma joinConsultation_existing_entry_witness :
  exists c',
    joinConsultation
      [room active [mkParticipant 7 (Some as_patient) (Some 1749549600000)
                                  (Some 1749550000000) disconnected]]
      1749550500000 ConsultationSpec.alice 50
    = (replace [room active [mkParticipant 7 (Some as_patient) (Some 1749549600000)
                                           (Some 1749550000000) disconnected]] c', ok c')
    /\ status c' = active
    /\ List.length (participants c') = 1%nat
    /\ findParticipant (participants c') 7
       = Some (mkParticipant 7 (Some as_patient) (Some 1749550500000) None disconnected).
Proof.
  apply (joinConsultation_existing_entry
           [room active [mkParticipant 7 (Some as_patient) (Some 1749549600000)
                                       (Some 1749550000000) disconnected]]
           1749550500000 ConsultationSpec.alice 50%nat
           (room active [mkParticipant 7 (Some as_patient) (Some 1749549600000)
                                       (Some 1749550000000) disconnected])
           (mkParticipant 7 (Some as_patient) (Some 1749549600000)
                          (Some 1749550000000) disconnected));
    reflexivity.
Defined.

Lemma leaveConsultation_existing_entry_witness :
  exists c',
    leaveConsultation
      [room active [mkParticipant 7 (Some as_patient) (Some 1749549600000) None connected]]
      1749550000000 ConsultationSpec.alice 50
    = (replace [room active [mkParticipant 7 (Some as_patient) (Some 1749549600000)
                                           None connected]] c', ok c')
    /\ status c' = active
    /\ List.length (participants c') = 1%nat
    /\ findParticipant (participants c') 7
       = Some (mkParticipant 7 (Some as_patient) (Some 1749549600000)
                             (Some 1749550000000) connected).
Proof.
  apply (leaveConsultation_existing_entry
           [room active [mkParticipant 7 (Some as_patient) (Some 1749549600000) None connected]]
           1749550000000 ConsultationSpec.alice 50%nat
           (room active [mkParticipant 7 (Some as_patient) (Some 1749549600000) None connected])
           (mkParticipant 7 (Some as_patient) (Some 1749549600000) None connected));
    reflexivity.
Defined.

(** ** Reading a consultation *)

Lemma populate_id users ref u : Query.populate users ref = Some u -> user_id u = ref.
Proof.
  unfold Query.populate. intros H. apply find_some in H. now apply Nat.eqb_eq.
Qed.

(** With the accounts of patient and practitioner in place, a consultation
    is read by its patient, its practitioner and admins and by nobody else
    (who get 403): the same callers as for start, join and notes.  Reading
    by room id gives the same answer as reading by id. *)
Theorem consultation_read_access users db reqUser i c :
  findById db i = Some c ->
  Query.populate users (patient c) <> None ->
  Query.populate users (practitioner c) <> None ->
  (notParticipantOrAdmin reqUser c = false -> getConsultation users db reqUser i = ok c)
  /\ (notParticipantOrAdmin reqUser c = true ->
      getConsultation users db reqUser i
      = fail (AppError "Not authorized to access this consultation" 403))
  /\ (forall room, findByRoom db room = Some c ->
        getConsultationByRoom users db reqUser room = getConsultation users db reqUser i).
Proof.
  intros Hf Hpa Hpr.
  destruct (Query.populate users (patient c)) as [u|] eqn:Eu; [|contradiction].
  destruct (Query.populate users (practitioner c)) as [w|] eqn:Ew; [|contradiction].
  apply populate_id in Eu as Hu. apply populate_id in Ew as Hw.
  assert (Hauth : authorizeRead users reqUser c
                  = if notParticipantOrAdmin reqUser c
                    then fail (AppError "Not authorized to access this consultation" 403)
                    else ok tt).
  { unfold authorizeRead, notParticipantOrAdmin. rewrite Eu, Ew. simpl. rewrite Hu, Hw.
    destruct (patient c =? id reqUser)%nat; simpl; [reflexivity|].
    destruct (practitioner c =? id reqUser)%nat; simpl; [reflexivity|].
    destruct (Role_eqb (role reqUser) role_admin); reflexivity. }
  split; [|split].
  - intros Hn. unfold getConsultation. now rewrite Hf, Hauth, Hn.
  - intros Hn. unfold getConsultation. now rewrite Hf, Hauth, Hn.
  - intros room Hroom. unfold getConsultationByRoom, getConsultation. now rewrite Hroom, Hf.
Qed.

Lemma consultation_read_access_witness :
  getConsultation [mkUser 7 role_user true; mkUser 1 role_admin true] [room active []]
                  ConsultationSpec.alice 50
  = ok (room active [])
  /\ getConsultation [mkUser 7 role_user true; mkUser 1 role_admin true] [room active []]
                     carol 50
     = fail (AppError "Not authorized to access this consultation" 403)
  /\ getConsultationByRoom [mkUser 7 role_user true; mkUser 1 role_admin true]
                           [room active []] ConsultationSpec.alice
                           "consultation_50_1749513600000"
     = getConsultation [mkUser 7 role_user true; mkUser 1 role_admin true] [room active []]
                       ConsultationSpec.alice 50.
Proof.
  destruct (consultation_read_access [mkUser 7%nat role_user true; mkUser 1%nat role_admin true]
              [room active []] ConsultationSpec.alice 50%nat (room active []))
    as (Hok & _ & Hroom); [reflexivity|discriminate|discriminate|].
  destruct (consultation_read_access [mkUser 7%nat role_user true; mkUser 1%nat role_admin true]
              [room active []] carol 50%nat (room active []))
    as (_ & Hno & _); [reflexivity|discriminate|discriminate|].
  split; [apply Hok; reflexivity|]. split; [apply Hno; reflexivity|].
  apply Hroom. reflexivity.
Defined.

(** ** Pages of consultations *)

Lemma firstn_plus {A} (n m : nat) (l : list A) :
  firstn (n + m) l = firstn n l ++ firstn m (skipn n l).
Proof.
  revert l. induction n as [|n IH]; intros l; simpl; [reflexivity|].
  destruct l as [|x l]; simpl.
  - now rewrite firstn_nil.
  - now rewrite IH.
Qed.

Lemma in_firstn {A} n (l : list A) x : In x (firstn n l) -> In x l.
Proof.
  revert l. induction n as [|n IH]; intros l; simpl; [intros []|].
  destruct l as [|y l]; simpl; [intros []|]. intros [->|H]; [now left|right; now apply IH].
Qed.

Lemma in_skipn {A} n (l : list A) x : In x (skipn n l) -> In x l.
Proof.
  revert l. induction n as [|n IH]; intros l; simpl; [trivial|].
  destruct l as [|y l]; simpl; [intros []|]. intros H. right. now apply IH.
Qed.

Lemma StronglySorted_skipn {A} (R : A -> A -> Prop) n (l : list A) :
  StronglySorted R l -> StronglySorted R (skipn n l).
Proof.
  revert l. induction n as [|n IH]; intros l H; simpl; [exact H|].
  destruct l as [|x l]; [constructor|]. apply IH. now inversion H.
Qed.

Lemma StronglySorted_firstn {A} (R : A -> A -> Prop) n (l : list A) :
  StronglySorted R l -> StronglySorted R (firstn n l).
Proof.
  revert l. induction n as [|n IH]; intros l H; simpl; [constructor|].
  destruct l as [|x l]; [constructor|].
  inversion H as [|? ? Hs Hx]; subst. constructor; [now apply IH|].
  rewrite Forall_forall in *. intros y Hy. apply Hx. now apply (in_firstn n l).
Qed.

Lemma StronglySorted_app_cross {A} (R : A -> A -> Prop) (l1 l2 : list A) x y :
  StronglySorted R (l1 ++ l2) -> In x l1 -> In y l2 -> R x y.
Proof.
  induction l1 as [|z l1 IH]; simpl; intros H Hx Hy; [destruct Hx|].
  inversion H as [|? ? Hs Hz]; subst.
  destruct Hx as [->|Hx].
  - rewrite Forall_forall in Hz. apply Hz. apply in_app_iff. now right.
  - now apply IH.
Qed.

Lemma StronglySorted_weaken {A} (R S : A -> A -> Prop) (l : list A) :
  (forall x y, R x y -> S x y) -> StronglySorted R l -> StronglySorted S l.
Proof.
  intros HRS. induction 1 as [|x l Hs IH Hx]; constructor; [exact IH|].
  rewrite Forall_forall in *. intros y Hy. apply HRS. now apply Hx.
Qed.

Lemma window_nonempty {A} (k n : nat) (l : list A) :
  (1 <= n)%nat -> (Query.window k n l <> [] <-> (k < List.length l)%nat).
Proof.
  intros Hn. unfold Query.window. split.
  - intros H. destruct (Nat.lt_ge_cases k (List.length l)) as [|Hge]; [assumption|].
    exfalso. apply H. rewrite skipn_all2 by exact Hge. apply firstn_nil.
  - intros Hk E. apply (f_equal (@List.length A)) in E.
    rewrite length_firstn, length_skipn in E. simpl in E. lia.
Qed.

(** The pages of [getMyConsultations] tile the caller's consultations,
    latest first: a page holds at most [limit] entries, all of them
    consultations of the caller; the first [page] pages together are the
    first [page * limit] entries of the whole list; a page is non-empty
    exactly when its number does not exceed [totalPages]. *)
Theorem getMyConsultations_pages db reqUser status limit page :
  let all := Query.sortByDesc Consultation.startTime
               (filter (fun c => involves (id reqUser) c && statusMatches status c) db) in
  let r := getMyConsultations db reqUser status (Some limit) (Some page) in
  (results r <= Pos.to_nat limit)%nat
  /\ results r = List.length (consultations r)
  /\ (forall c, In c (consultations r) ->
        In c db /\ (patient c = id reqUser \/ practitioner c = id reqUser))
  /\ firstn (Pos.to_nat page * Pos.to_nat limit) all
     = firstn ((Pos.to_nat page - 1) * Pos.to_nat limit) all ++ consultations r
  /\ StronglySorted (fun a b => Consultation.startTime b <= Consultation.startTime a)
                    (consultations r)
  /\ ((Pos.to_nat page <= totalPages r)%nat <-> consultations r <> []).
Proof.
  intros all r.
  pose proof (Pos2Nat.is_pos limit) as HL. pose proof (Pos2Nat.is_pos page) as HP.
  set (L := Pos.to_nat limit) in *. set (P := Pos.to_nat page) in *.
  set (q := fun c => involves (id reqUser) c && statusMatches status c) in *.
  assert (Hr : consultations r = Query.window ((P - 1) * L) L all) by reflexivity.
  assert (Hperm : Permutation all (filter q db)) by apply sortBy_perm.
  assert (Hsorted : StronglySorted
                      (fun a b => Consultation.startTime b <= Consultation.startTime a) all).
  { unfold all, Query.sortByDesc.
    apply (StronglySorted_weaken
             (fun a b => - Consultation.startTime a <= - Consultation.startTime b)).
    - intros x y Hxy. lia.
    - apply sortBy_sorted. }
  split; [|split; [|split; [|split; [|split]]]].
  - change (results r) with (List.length (consultations r)). rewrite Hr.
    unfold Query.window. rewrite length_firstn. lia.
  - reflexivity.
  - intros c Hc. rewrite Hr in Hc. unfold Query.window in Hc.
    apply in_firstn, in_skipn in Hc.
    apply (Permutation_in _ Hperm) in Hc. apply filter_In in Hc.
    destruct Hc as [Hc Hq]. split; [exact Hc|].
    unfold q, involves in Hq. apply andb_true_iff in Hq. destruct Hq as [Hq _].
    apply orb_true_iff in Hq. destruct Hq as [Hq|Hq]; apply Nat.eqb_eq in Hq; tauto.
  - rewrite Hr. unfold Query.window. rewrite <- firstn_plus. f_equal. nia.
  - rewrite Hr. unfold Query.window.
    apply StronglySorted_firstn, StronglySorted_skipn. exact Hsorted.
  - rewrite Hr, (window_nonempty _ _ _ HL).
    change (totalPages r) with ((List.length (filter q db) + L - 1) / L)%nat.
    rewrite (Permutation_length Hperm).
    set (total := List.length (filter q db)).
    pose proof (Nat.div_mod (total + L - 1) L ltac:(lia)) as Hdm.
    pose proof (Nat.mod_upper_bound (total + L - 1) L ltac:(lia)) as Hmb.
    set (T := ((total + L - 1) / L)%nat) in *.
    set (m := ((total + L - 1) mod L)%nat) in *.
    split; intros H; nia.
Qed.

(** ** Upcoming consultations *)

(** [findUpcoming] returns the soonest scheduled consultations of the user
    that have not begun: at most [limit] of them (10 when no limit is
    given), in ascending order of start time, and no consultation that
    qualifies but was left out starts before one that was returned. *)
Theorem findUpcoming_soonest db now userId limit :
  let n := Pos.to_nat (match limit with Some l => l | None => 10%positive end) in
  let r := findUpcoming db now userId limit in
  (List.length r <= n)%nat
  /\ (forall c, In c r ->
        In c db /\ (patient c = userId \/ practitioner c = userId)
        /\ status c = scheduled /\ now <= Consultation.startTime c)
  /\ StronglySorted (fun a b => Consultation.startTime a <= Consultation.startTime b) r
  /\ (forall c c', In c r -> In c' db ->
        (patient c' = userId \/ practitioner c' = userId) ->
        status c' = scheduled -> now <= Consultation.startTime c' ->
        ~ In c' r ->
        Consultation.startTime c <= Consultation.startTime c').
Proof.
  intros n r.
  set (q := fun c => involves userId c && Status_eqb (status c) scheduled
                     && (now <=? Consultation.startTime c)).
  set (all := Query.sortBy Consultation.startTime (filter q db)).
  assert (Hr : r = firstn n all) by reflexivity.
  assert (Hperm : Permutation all (filter q db)) by apply sortBy_perm.
  assert (Hsorted : StronglySorted
                      (fun a b => Consultation.startTime a <= Consultation.startTime b) all)
    by apply sortBy_sorted.
  assert (Hq : forall c, q c = true <->
                 (patient c = userId \/ practitioner c = userId)
                 /\ status c = scheduled /\ now <= Consultation.startTime c).
  { intros c. unfold q, involves.
    rewrite !andb_true_iff, orb_true_iff, !Nat.eqb_eq, Z.leb_le.
    destruct (status c); simpl; intuition congruence. }
  split; [|split; [|split]].
  - rewrite Hr, length_firstn. lia.
  - intros c Hc. rewrite Hr in Hc. apply in_firstn in Hc.
    apply (Permutation_in _ Hperm) in Hc. apply filter_In in Hc.
    destruct Hc as [Hc Hqc]. apply Hq in Hqc. tauto.
  - rewrite Hr. now apply StronglySorted_firstn.
  - intros c c' Hc Hc' Hinv Hst Hnow Hout.
    assert (Hall : In c' all).
    { apply (Permutation_in _ (Permutation_sym Hperm)). apply filter_In.
      split; [exact Hc'|]. apply Hq. tauto. }
    rewrite <- (firstn_skipn n all) in Hall, Hsorted.
    apply in_app_iff in Hall. destruct Hall as [Hall|Hall].
    + exfalso. apply Hout. now rewrite Hr.
    + rewrite Hr in Hc. exact (StronglySorted_app_cross _ _ _ c c' Hsorted Hc Hall).
Qed.

(** The two cursors on a sample collection: three consultations of patient
    7, the page size 2, and the next one ahead. *)
Example pages_of_three :
  let later t := Consultation.mk (Pos.to_nat t) 1 7 1 (Some "r"%string) scheduled
                                 (Zpos t) None None None None None None None []
                                 noFeedback in
  let db := [later 200%positive; later 100%positive; later 300%positive] in
  map Consultation.startTime
      (consultations (getMyConsultations db ConsultationSpec.alice no_status
                                         (Some 2%positive) (Some 1%positive)))
  = [300; 200]
  /\ map Consultation.startTime
         (consultations (getMyConsultations db ConsultationSpec.alice no_status
                                            (Some 2%positive) (Some 2%positive)))
     = [100]
  /\ totalPages (getMyConsultations db ConsultationSpec.alice no_status
                                    (Some 2%positive) None) = 2%nat
  /\ map Consultation.startTime (findUpcoming db 150 7 (Some 1%positive)) = [200].
Proof. repeat split; reflexivity. Qed.
